(** * A shallow embedding of the WhatsApp / Gemini relay ([src/main.py])

    The program is a FastAPI application with four routes
    ([GET /webhook], [POST /webhook], [GET /health], [GET /debug]) and four
    helper coroutines that talk to two third-party HTTP APIs.  Nothing is
    kept between requests, so a run of a handler is modelled as a
    computation that
    - reads the module-level configuration,
    - appends to a trace of observable events (helper invocations,
      outbound HTTP requests, log lines), and
    - asks the outside world for the outcome of each outbound request.

    Python exceptions are modelled by an error monad whose state (the
    trace) survives a [raise], as it does in Python. *)

From Stdlib Require Import String Ascii List NArith ZArith Bool Lia PrimFloat DecimalString.
From Stdlib Require Strings.Byte.
Import ListNotations.

Set Warnings "-register-all".
#[local] Open Scope string_scope.
#[local] Open Scope Z_scope.

(* ====================================================================== *)
(** ** Strings *)

(** The line feed of the ["\n"] escapes of the source. *)
Definition nl : string := String (ascii_of_nat 10) EmptyString.

(** Python [needle in hay] on two [str] values.  Strings are held in
    UTF-8, for which byte-wise and character-wise substring search
    agree. *)
Fixpoint contains (needle hay : string) : bool :=
  match hay with
  | EmptyString => String.prefix needle EmptyString
  | String _ rest => String.prefix needle hay || contains needle rest
  end.

(** A UTF-8 continuation byte, [10xxxxxx]. *)
Definition is_continuation (c : ascii) : bool :=
  let n := nat_of_ascii c in (Nat.leb 128 n && Nat.ltb n 192)%bool.

(** Python [s[:n]]: the first [n] characters (code points) of [s]. *)
Fixpoint take_chars (n : nat) (s : string) : string :=
  match s with
  | EmptyString => EmptyString
  | String c rest =>
      if is_continuation c then String c (take_chars n rest)
      else match n with
           | O => EmptyString
           | S n' => String c (take_chars n' rest)
           end
  end.

(** Python [s[0]] on a non-empty [str]: its first character. *)
Definition first_char (s : string) : string := take_chars 1 s.

(** [f"{n}"] for an [int]. *)
Definition str_of_int (z : Z) : string := NilZero.string_of_int (Z.to_int z).

(** [base64.b64encode(bs).decode("utf-8")] (RFC 4648, with padding). *)
Definition b64_alphabet : string :=
  "ABCDEFGHIJKLMNOPQRSTUVWXYZabcdefghijklmnopqrstuvwxyz0123456789+/".

Definition b64_char (n : N) : ascii :=
  match String.get (N.to_nat n) b64_alphabet with
  | Some c => c
  | None => "="%char
  end.

Fixpoint b64encode (bs : list Byte.byte) : string :=
  match bs with
  | [] => ""
  | [a] =>
      let x := Strings.Byte.to_N a in
      String (b64_char (x / 4)) (String (b64_char (x mod 4 * 16)) "==")
  | [a; b] =>
      let x := Strings.Byte.to_N a in
      let y := Strings.Byte.to_N b in
      String (b64_char (x / 4))
        (String (b64_char (x mod 4 * 16 + y / 16))
           (String (b64_char (y mod 16 * 4)) "="))
  | a :: b :: c :: rest =>
      let x := Strings.Byte.to_N a in
      let y := Strings.Byte.to_N b in
      let z := Strings.Byte.to_N c in
      String (b64_char (x / 4))
        (String (b64_char (x mod 4 * 16 + y / 16))
           (String (b64_char (y mod 16 * 4 + z / 64))
              (String (b64_char (z mod 64)) (b64encode rest))))
  end%N.

(** [f"{x}"] and truthiness for a module-level value read with
    [os.getenv], which is a [str] or [None]. *)
Definition fmt_opt (o : option string) : string :=
  match o with Some s => s | None => "None" end.

Definition opt_truthy (o : option string) : bool :=
  match o with Some s => negb (String.eqb s "") | None => false end.

(* ====================================================================== *)
(** ** Python values that come out of [json.loads] *)

Inductive json : Type :=
| JNull
| JBool (b : bool)
| JInt (z : Z)
| JFloat (f : float)
| JStr (s : string)
| JArr (xs : list json)
| JObj (items : list (string * json)).

(** A [dict] is held as its items in insertion order; a key is looked up
    from the front. *)
Fixpoint lookup (k : string) (items : list (string * json)) : option json :=
  match items with
  | [] => None
  | (k', v) :: rest => if String.eqb k k' then Some v else lookup k rest
  end.

(** [bool(v)] *)
Definition truthy (v : json) : bool :=
  match v with
  | JNull => false
  | JBool b => b
  | JInt z => negb (Z.eqb z 0)
  | JFloat f => negb (PrimFloat.eqb f 0%float)
  | JStr s => negb (String.eqb s "")
  | JArr xs => match xs with [] => false | _ :: _ => true end
  | JObj items => match items with [] => false | _ :: _ => true end
  end.

(** [v == s] for a string literal [s]. *)
Definition is_str (v : json) (s : string) : bool :=
  match v with JStr s' => String.eqb s' s | _ => false end.

(* ====================================================================== *)
(** ** HTTP messages and exceptions *)

(** What the program reads from an [httpx.Response]: [.status_code],
    [.text], [.json()] ([None] when decoding raises) and [.content]. *)
Record response : Type := mkResponse {
  status_code : Z;
  text : string;
  json_of : option json;
  content : list Byte.byte
}.

Inductive exn : Type :=
| KeyError (key : json)
| IndexError
| TypeError (op : string) (operand : json)
| AttributeError (attr : string) (operand : json)
| JSONDecodeError
| ValueError (msg : string)
| HTTPStatusError (resp : response)      (* httpx, from [raise_for_status] *)
| TransportError (msg : string)          (* httpx, no response was obtained *)
| HTTPException (status : Z) (detail : string).   (* fastapi *)

Inductive result (A : Type) : Type :=
| Ok (a : A)
| Raise (e : exn).
Arguments Ok {A} a.
Arguments Raise {A} e.

(** *** Operations on Python values, with the exceptions they raise *)

(** [k in v] for a string [k] *)
Definition py_in (k : string) (v : json) : result bool :=
  match v with
  | JObj items => Ok (match lookup k items with Some _ => true | None => false end)
  | JArr xs => Ok (existsb (fun x => is_str x k) xs)
  | JStr s => Ok (contains k s)
  | _ => Raise (TypeError "in" v)
  end.

(** [v[k]] for a string [k] *)
Definition py_getitem (v : json) (k : string) : result json :=
  match v with
  | JObj items =>
      match lookup k items with
      | Some x => Ok x
      | None => Raise (KeyError (JStr k))
      end
  | _ => Raise (TypeError "getitem" v)
  end.

(** [v[0]]; the keys of a decoded JSON object are strings, so [0] is
    never one of them. *)
Definition py_getitem0 (v : json) : result json :=
  match v with
  | JArr [] => Raise IndexError
  | JArr (x :: _) => Ok x
  | JStr EmptyString => Raise IndexError
  | JStr s => Ok (JStr (first_char s))
  | JObj _ => Raise (KeyError (JInt 0))
  | _ => Raise (TypeError "getitem" v)
  end.

(** [v.get(k, default)] *)
Definition py_get (v : json) (k : string) (default : json) : result json :=
  match v with
  | JObj items =>
      Ok (match lookup k items with Some x => x | None => default end)
  | _ => Raise (AttributeError "get" v)
  end.

(** [v.keys()], of which only the success matters (it is logged). *)
Definition py_keys (v : json) : result (list string) :=
  match v with
  | JObj items => Ok (map fst items)
  | _ => Raise (AttributeError "keys" v)
  end.

(** [v[:100]], evaluated for a log line: only [str] and [list] among the
    decoded values can be sliced.  (For a [dict] the exception is a
    [TypeError] or, from Python 3.12 on, a [KeyError]; both are caught by
    the [except Exception] around the one place that slices.) *)
Definition py_slice100 (v : json) : result json :=
  match v with
  | JStr s => Ok (JStr (take_chars 100 s))
  | JArr xs => Ok (JArr (firstn 100 xs))
  | _ => Raise (TypeError "slice" v)
  end.

(* ====================================================================== *)
(** ** Events, the outside world, and the monad *)

Inductive http_method : Type := GET | POST.

Record http_request : Type := mkRequest {
  method : http_method;
  url : string;
  headers : list (string * string);
  json_payload : option json
}.

Inductive helper_call : Type :=
| CallDownload (media_id : json)
| CallAnalyze (image_bytes : list Byte.byte)
| CallAnswer (question : json)
| CallSend (to : json) (body : json).

Inductive level : Type := INFO | WARNING | ERROR.

(** An observable step of a run: a helper coroutine is entered with its
    arguments, an HTTP request is issued, a line is logged.  A log line
    is identified by the text of its format string as written in the
    source, placeholders unexpanded. *)
Inductive event : Type :=
| EvEnter (c : helper_call)
| EvHttp (r : http_request)
| EvLog (lvl : level) (template : string).

Definition trace : Type := list event.

(** What an outbound request comes back with: a response, or an exception
    of the HTTP client (connection failure, timeout, unusable URL, ...)
    whose [str()] is [msg]. *)
Inductive outcome : Type :=
| Responds (r : response)
| Fails (msg : string).

(** The outside world answers a request knowing everything that was
    observable before it. *)
Definition world : Type := trace -> http_request -> outcome.

Definition M (A : Type) : Type := world -> trace -> result A * trace.

Definition ret {A} (a : A) : M A := fun _ tr => (Ok a, tr).

Definition bind {A B} (m : M A) (k : A -> M B) : M B :=
  fun w tr =>
    match m w tr with
    | (Ok a, tr') => k a w tr'
    | (Raise e, tr') => (Raise e, tr')
    end.

Definition raise {A} (e : exn) : M A := fun _ tr => (Raise e, tr).

Definition lift {A} (r : result A) : M A := fun _ tr => (r, tr).

(** [try: body  except Exception as e: handler(e)]; a narrower [except]
    clause re-raises in [handler]. *)
Definition try_except {A} (body : M A) (handler : exn -> M A) : M A :=
  fun w tr =>
    match body w tr with
    | (Ok a, tr') => (Ok a, tr')
    | (Raise e, tr') => handler e w tr'
    end.

Definition emit (ev : event) : M unit := fun _ tr => (Ok tt, (tr ++ [ev])%list).

Definition log (lvl : level) (template : string) : M unit :=
  emit (EvLog lvl template).

Definition enter (c : helper_call) : M unit := emit (EvEnter c).

Definition send_request (r : http_request) : M response :=
  fun w tr =>
    match w tr r with
    | Responds resp => (Ok resp, (tr ++ [EvHttp r])%list)
    | Fails msg => (Raise (TransportError msg), (tr ++ [EvHttp r])%list)
    end.

Declare Scope monad_scope.
Delimit Scope monad_scope with monad.
Notation "x <- c1 ;; c2" := (bind c1 (fun x => c2))
  (at level 61, c1 at next level, right associativity) : monad_scope.
Notation "c1 ;; c2" := (bind c1 (fun _ => c2))
  (at level 61, right associativity) : monad_scope.
#[local] Open Scope monad_scope.

(** [httpx.Response.raise_for_status]: an [HTTPStatusError] unless the
    status is a 2xx one. *)
Definition is_success (status : Z) : bool := (200 <=? status) && (status <=? 299).

Definition raise_for_status (resp : response) : M unit :=
  if is_success (status_code resp) then ret tt else raise (HTTPStatusError resp).

(** [resp.json()] *)
Definition response_json (resp : response) : M json :=
  match json_of resp with
  | Some j => ret j
  | None => raise JSONDecodeError
  end.

(** [client.get(url, headers=...)]; httpx raises [TypeError] for a URL
    that is not a [str] before anything is sent. *)
Definition client_get (u : json) (hs : list (string * string)) : M response :=
  match u with
  | JStr s => send_request (mkRequest GET s hs None)
  | _ => raise (TypeError "url" u)
  end.

(** [client.post(url, headers=..., json=...)] *)
Definition client_post (u : string) (hs : list (string * string)) (payload : json)
  : M response :=
  send_request (mkRequest POST u hs (Some payload)).

(* ====================================================================== *)
(** ** Configuration *)

Record config : Type := mkConfig {
  WHATSAPP_TOKEN : option string;
  PHONE_NUMBER_ID : option string;
  VERIFY_TOKEN : string;
  GEMINI_API_KEY : option string
}.

(** The four [os.getenv] reads at import time. *)
Definition load_config (getenv : string -> option string) : config :=
  {| WHATSAPP_TOKEN := getenv "WHATSAPP_TOKEN";
     PHONE_NUMBER_ID := getenv "PHONE_NUMBER_ID";
     VERIFY_TOKEN := match getenv "VERIFY_TOKEN" with
                     | Some s => s
                     | None => "mysecrettoken"
                     end;
     GEMINI_API_KEY := getenv "GEMINI_API_KEY" |}.

(** What the interpreter and the libraries decide and the program only
    passes on: the text [str()] gives for a value or for an exception.
    Of [str()] the model fixes only that a [str] formats as itself. *)
Class PyRuntime : Type := {
  py_str : json -> string;
  py_str_JStr : forall s, py_str (JStr s) = s;
  exn_str : exn -> string
}.

(* ====================================================================== *)
(** ** What FastAPI does with a handler's result *)

(** The request as the handlers use it: [request.query_params] and what
    [await request.json()] gives ([None] when the body does not decode,
    in which case it raises). *)
Record Request : Type := mkReq {
  query_params : list (string * string);
  request_json_body : option json
}.

(** [dict(request.query_params).get(k)]: of a repeated parameter the last
    value is kept. *)
Fixpoint params_get (k : string) (qs : list (string * string)) : option string :=
  match qs with
  | [] => None
  | (k', v) :: rest =>
      match params_get k rest with
      | Some v' => Some v'
      | None => if String.eqb k k' then Some v else None
      end
  end.

Inductive handler_value : Type :=
| RetDict (d : json)                          (* a [dict], sent as JSON *)
| RetPlainText (content : option string).     (* [PlainTextResponse] *)

Inductive reply_body : Type :=
| BodyJson (d : json)
| BodyText (s : string).

Record http_reply : Type := mkReply {
  reply_status : Z;
  reply_body_of : reply_body
}.

(** A returned value is sent with status 200 (a [None] content renders as
    the empty body); an [HTTPException] with its own status; any other
    exception that leaves the handler becomes a 500. *)
Definition fastapi (r : result handler_value) : http_reply :=
  match r with
  | Ok (RetDict d) => mkReply 200 (BodyJson d)
  | Ok (RetPlainText (Some s)) => mkReply 200 (BodyText s)
  | Ok (RetPlainText None) => mkReply 200 (BodyText "")
  | Raise (HTTPException status detail) =>
      mkReply status (BodyJson (JObj [("detail", JStr detail)]))
  | Raise _ => mkReply 500 (BodyText "Internal Server Error")
  end.

(** [{"status": s}] *)
Definition status_dict (s : string) : json := JObj [("status", JStr s)].

Definition json_of_opt (o : option string) : json :=
  match o with Some s => JStr s | None => JNull end.

(* ====================================================================== *)
(** ** The program *)

Section Program.

Context {rt : PyRuntime}.
Variable cfg : config.

Definition WHATSAPP_API_URL : string :=
  "https://graph.facebook.com/v18.0/" ++ fmt_opt (PHONE_NUMBER_ID cfg) ++ "/messages".

(** *** Startup validation *)

Definition validate_env_vars : M unit :=
  let missing :=
    ((if opt_truthy (WHATSAPP_TOKEN cfg) then [] else ["WHATSAPP_TOKEN"]) ++
     (if opt_truthy (PHONE_NUMBER_ID cfg) then [] else ["PHONE_NUMBER_ID"]))%list in
  (if opt_truthy (GEMINI_API_KEY cfg) then ret tt
   else log WARNING "⚠️ GEMINI_API_KEY not set - AI features will be disabled") ;;
  (match missing with
   | [] => ret tt
   | _ :: _ =>
       log ERROR "❌ Missing required environment variables: {', '.join(missing)}" ;;
       log ERROR "💡 Please check your .env file and make sure these are set:" ;;
       fold_right (fun (_ : string) k => log ERROR "   - {var}=your_value_here" ;; k)
                  (ret tt) missing ;;
       raise (ValueError ("Missing environment variables: " ++ String.concat ", " missing))
   end) ;;
  log INFO "✅ Environment variables validated" ;;
  log INFO "📱 Phone Number ID: {PHONE_NUMBER_ID}" ;;
  log INFO "🔑 WhatsApp Token: {WHATSAPP_TOKEN[:20]}..." ;;
  log INFO "🤖 Gemini API: {'Connected' if GEMINI_API_KEY else 'Not configured'}".

(** *** Helpers *)

Definition download_whatsapp_media (media_id : json) : M (list Byte.byte) :=
  enter (CallDownload media_id) ;;
  let hs := [("Authorization", "Bearer " ++ fmt_opt (WHATSAPP_TOKEN cfg))] in
  (* Step 1: get the media URL *)
  meta_resp <- client_get (JStr ("https://graph.facebook.com/v18.0/" ++ py_str media_id)) hs ;;
  raise_for_status meta_resp ;;
  meta <- response_json meta_resp ;;
  media_url <- lift (py_get meta "url" JNull) ;;
  (* Step 2: download the actual image bytes *)
  img_resp <- client_get media_url hs ;;
  raise_for_status img_resp ;;
  ret (content img_resp).

Definition analyze_unconfigured : string :=
  "✅ Image received! (Connect your AI model here to analyze it.)".
Definition analyze_busy : string :=
  "✅ Image received! (AI is temporarily busy - please try again in a moment)".
Definition analyze_unavailable (status : Z) : string :=
  "✅ Image received! (Analysis temporarily unavailable: " ++ str_of_int status ++ ")".
Definition analyze_error : string :=
  "✅ Image received! (Analysis encountered an error)".

Definition vision_url : string :=
  "https://generativelanguage.googleapis.com/v1beta/models/gemini-2.5-flash:generateContent?key="
  ++ fmt_opt (GEMINI_API_KEY cfg).

Definition vision_payload (b64_image : string) : json :=
  JObj [("contents", JArr [
    JObj [("parts", JArr [
      JObj [("text", JStr "Describe what you see in this image in 2-3 sentences.")];
      JObj [("inline_data", JObj [("mime_type", JStr "image/jpeg");
                                  ("data", JStr b64_image)])]])]])].

(** [result["candidates"][0]["content"]["parts"][0]["text"]] *)
Definition candidate_text (res : json) : result json :=
  match py_getitem res "candidates" with
  | Raise e => Raise e
  | Ok cs =>
  match py_getitem0 cs with
  | Raise e => Raise e
  | Ok c =>
  match py_getitem c "content" with
  | Raise e => Raise e
  | Ok ct =>
  match py_getitem ct "parts" with
  | Raise e => Raise e
  | Ok ps =>
  match py_getitem0 ps with
  | Raise e => Raise e
  | Ok p => py_getitem p "text"
  end end end end end.

Definition analyze_image (image_bytes : list Byte.byte) : M json :=
  enter (CallAnalyze image_bytes) ;;
  if negb (opt_truthy (GEMINI_API_KEY cfg)) then ret (JStr analyze_unconfigured)
  else
    let b64_image := b64encode image_bytes in
    try_except
      (resp <- client_post vision_url [("Content-Type", "application/json")]
                           (vision_payload b64_image) ;;
       if status_code resp =? 429 then
         log WARNING "⚠️ Gemini rate limit hit" ;;
         ret (JStr analyze_busy)
       else
         raise_for_status resp ;;
         res <- response_json resp ;;
         lift (candidate_text res))
      (fun e =>
         match e with
         | HTTPStatusError r =>
             log ERROR "Gemini API error: {e}" ;;
             if status_code r =? 429 then ret (JStr analyze_busy)
             else
               log ERROR "Response body: {e.response.text}" ;;
               ret (JStr (analyze_unavailable (status_code r)))
         | _ =>
             log ERROR "Unexpected error in analyze_image: {e}" ;;
             ret (JStr analyze_error)
         end).

Definition answer_unconfigured : string :=
  "🤖 AI is not configured. Please set up GEMINI_API_KEY.".
Definition answer_busy : string :=
  "⏳ I'm a bit busy right now. Please try again in a moment!".
Definition answer_http_error : string :=
  "⚠️ Sorry, I encountered an error. Please try again later.".
Definition answer_error : string :=
  "⚠️ Sorry, something went wrong. Please try again.".

Definition text_url : string :=
  "https://generativelanguage.googleapis.com/v1/models/gemini-1.5-flash:generateContent?key="
  ++ fmt_opt (GEMINI_API_KEY cfg).

Definition text_payload (question : json) : json :=
  JObj [("contents", JArr [JObj [("parts", JArr [JObj [("text", question)]])]])].

Definition answer_question (question : json) : M json :=
  enter (CallAnswer question) ;;
  if negb (opt_truthy (GEMINI_API_KEY cfg)) then ret (JStr answer_unconfigured)
  else
    try_except
      (resp <- client_post text_url [("Content-Type", "application/json")]
                           (text_payload question) ;;
       if status_code resp =? 429 then
         log WARNING "⚠️ Gemini rate limit hit" ;;
         ret (JStr answer_busy)
       else
         raise_for_status resp ;;
         res <- response_json resp ;;
         lift (candidate_text res))
      (fun e =>
         match e with
         | HTTPStatusError r =>
             log ERROR "Gemini API error: {e}" ;;
             if status_code r =? 429 then ret (JStr answer_busy)
             else
               log ERROR "Response body: {e.response.text}" ;;
               ret (JStr answer_http_error)
         | _ =>
             log ERROR "Unexpected error in answer_question: {e}" ;;
             ret (JStr answer_error)
         end).

Definition send_payload (to body : json) : json :=
  JObj [("messaging_product", JStr "whatsapp");
        ("to", to);
        ("type", JStr "text");
        ("text", JObj [("body", body)])].

Definition send_headers : list (string * string) :=
  [("Authorization", "Bearer " ++ fmt_opt (WHATSAPP_TOKEN cfg));
   ("Content-Type", "application/json")].

Definition send_whatsapp_message (to body : json) : M json :=
  enter (CallSend to body) ;;
  resp <- client_post WHATSAPP_API_URL send_headers (send_payload to body) ;;
  (if negb (status_code resp =? 200) then
     log ERROR "❌ WhatsApp API error: {resp.status_code} - {resp.text}" ;;
     raise_for_status resp
   else ret tt) ;;
  _ <- response_json resp ;;
  log INFO "✅ Message sent to {to}: {resp.json()}" ;;
  response_json resp.

(** *** Routes *)

Definition verify_webhook (request : Request) : M handler_value :=
  let params := query_params request in
  let mode := params_get "hub.mode" params in
  let token := params_get "hub.verify_token" params in
  let challenge := params_get "hub.challenge" params in
  log INFO "Verification request: mode={mode}, token={token}, challenge={challenge}" ;;
  if match mode, token with
     | Some m, Some t => String.eqb m "subscribe" && String.eqb t (VERIFY_TOKEN cfg)
     | _, _ => false
     end
  then
    log INFO "✅ Webhook verified!" ;;
    ret (RetPlainText challenge)
  else
    log ERROR "Verification failed - Expected token: {VERIFY_TOKEN}, Got: {token}" ;;
    raise (HTTPException 403 "Verification failed").

Definition image_apology (e : exn) : string :=
  "⚠️ Sorry, I encountered an error processing your image: " ++ exn_str e.
Definition text_apology : string :=
  "⚠️ Sorry, I couldn't process your question. Please try again!".
Definition unsupported_message : string :=
  "⚠️ Sorry, I only support image messages right now.".

Definition image_reply (caption analysis : json) : string :=
  let reply := "🖼️ *Image Analysis*" ++ nl ++ nl ++ py_str analysis in
  if truthy caption then "📝 Caption: _" ++ py_str caption ++ "_" ++ nl ++ nl ++ reply
  else reply.

(** Lines 330-337 and 351-358, the same block in both branches: the
    apology is sent inside a [try] whose bare [except] only logs. *)
Definition apologize (from_number : json) (apology : string) : M unit :=
  try_except
    (send_whatsapp_message from_number (JStr apology) ;; ret tt)
    (fun _ => log ERROR "❌ Could not send error message to user").

(** Lines 300-337: the [if msg_type == "image":] block. *)
Definition handle_image (message from_number : json) : M unit :=
  img <- lift (py_getitem message "image") ;;
  id <- lift (py_get img "id" JNull) ;;
  media_id <- (if truthy id then ret id
               else img' <- lift (py_getitem message "image") ;;
                    lift (py_get img' "media_id" JNull)) ;;
  img'' <- lift (py_getitem message "image") ;;
  caption <- lift (py_get img'' "caption" (JStr "")) ;;
  log INFO "🖼️ Image received from {from_number}, media_id={media_id}" ;;
  try_except
    (image_bytes <- download_whatsapp_media media_id ;;
     log INFO "✅ Downloaded image: {len(image_bytes)} bytes" ;;
     analysis <- analyze_image image_bytes ;;
     _ <- lift (py_slice100 analysis) ;;
     log INFO "🤖 Analysis complete: {analysis[:100]}..." ;;
     let reply := image_reply caption analysis in
     try_except
       (send_whatsapp_message from_number (JStr reply) ;;
        log INFO "✅ Reply sent successfully")
       (fun e =>
          match e with
          | HTTPStatusError r =>
              log ERROR "❌ Failed to send reply: {e}" ;;
              if contains "131030" (text r) then
                log ERROR "💡 TIP: Add this phone number to your allowed list in Meta Dashboard!"
              else ret tt
          | _ => raise e
          end))
    (fun e =>
       log ERROR "❌ Error processing image: {str(e)}" ;;
       apologize from_number (image_apology e)).

(** Lines 340-358: the [elif msg_type == "text":] block. *)
Definition handle_text (message from_number : json) : M unit :=
  t <- lift (py_getitem message "text") ;;
  body <- lift (py_getitem t "body") ;;
  log INFO "💬 Text from {from_number}: {text}" ;;
  try_except
    (answer <- answer_question body ;;
     send_whatsapp_message from_number answer ;;
     log INFO "✅ Answer sent successfully")
    (fun e =>
       log ERROR "❌ Error answering question: {e}" ;;
       apologize from_number text_apology).

(** Lines 361-366: the [else:] block. *)
Definition handle_unsupported (from_number : json) : M unit :=
  log INFO "⚠️ Unsupported message type: {msg_type}" ;;
  send_whatsapp_message from_number (JStr unsupported_message) ;;
  ret tt.

(** Lines 276-366, the body of the outer [try]: [Some d] when it executes
    [return d], [None] when control reaches the end of the block. *)
Definition webhook_try_block (body : json) : M (option json) :=
  has_entry <- lift (py_in "entry" body) ;;
  if negb has_entry then
    log WARNING "⚠️ No 'entry' field in webhook payload" ;;
    ret (Some (status_dict "ignored - no entry"))
  else
    entries <- lift (py_getitem body "entry") ;;
    entry <- lift (py_getitem0 entries) ;;
    changes_list <- lift (py_getitem entry "changes") ;;
    changes <- lift (py_getitem0 changes_list) ;;
    value <- lift (py_getitem changes "value") ;;
    _ <- lift (py_keys value) ;;
    log INFO "📋 Webhook value keys: {value.keys()}" ;;
    messages <- lift (py_get value "messages" JNull) ;;
    if negb (truthy messages) then
      log INFO "ℹ️ Webhook received but no messages (likely a status update)" ;;
      ret (Some (status_dict "no messages"))
    else
      message <- lift (py_getitem0 messages) ;;
      from_number <- lift (py_getitem message "from") ;;
      msg_type <- lift (py_get message "type" JNull) ;;
      log INFO "📨 Message type: {msg_type} from {from_number}" ;;
      (if is_str msg_type "image" then handle_image message from_number
       else if is_str msg_type "text" then handle_text message from_number
       else handle_unsupported from_number) ;;
      ret None.

Definition handle_webhook (request : Request) : M handler_value :=
  body <- (match request_json_body request with
           | Some b => ret b
           | None => raise JSONDecodeError
           end) ;;
  log INFO "📩 Raw webhook payload: {body}" ;;
  returned <-
    try_except (webhook_try_block body)
      (fun e =>
         match e with
         | KeyError _ | IndexError =>
             log ERROR "❌ Unexpected webhook structure: {e}" ;;
             log ERROR "Full body: {body}" ;;
             ret None
         | _ =>
             log ERROR "❌ Unexpected error: {str(e)}" ;;
             ret None
         end) ;;
  match returned with
  | Some d => ret (RetDict d)
  | None =>
      (* Always return 200 to WhatsApp so it doesn't retry *)
      ret (RetDict (status_dict "ok"))
  end.

Definition health_check : M handler_value :=
  ret (RetDict (JObj [("status", JStr "running");
                      ("phone_number_id", json_of_opt (PHONE_NUMBER_ID cfg));
                      ("gemini_connected", JBool (opt_truthy (GEMINI_API_KEY cfg)))])).

Definition debug_config : M handler_value :=
  ret (RetDict (JObj [
    ("whatsapp_token_set", JBool (opt_truthy (WHATSAPP_TOKEN cfg)));
    ("whatsapp_token_preview",
       if opt_truthy (WHATSAPP_TOKEN cfg)
       then JStr (take_chars 20 (fmt_opt (WHATSAPP_TOKEN cfg)) ++ "...")
       else JNull);
    ("phone_number_id", json_of_opt (PHONE_NUMBER_ID cfg));
    ("verify_token", JStr (VERIFY_TOKEN cfg));
    ("gemini_key_set", JBool (opt_truthy (GEMINI_API_KEY cfg)))])).

(** A request served from an empty trace: the reply FastAPI sends and the
    events of the run. *)
Definition serve (handler : M handler_value) (w : world) : http_reply * trace :=
  let (r, tr) := handler w [] in (fastapi r, tr).

End Program.

(* ====================================================================== *)
(** ** Vocabulary for the properties *)

(** *** What a run did *)

(** The helper invocations of a run, in order. *)
Fixpoint enters (tr : trace) : list helper_call :=
  match tr with
  | [] => []
  | EvEnter c :: rest => c :: enters rest
  | _ :: rest => enters rest
  end.

(** The outbound HTTP requests of a run, in order. *)
Fixpoint requests (tr : trace) : list http_request :=
  match tr with
  | [] => []
  | EvHttp r :: rest => r :: requests rest
  | _ :: rest => requests rest
  end.

(** The log lines of a run, in order. *)
Fixpoint logs (tr : trace) : list (level * string) :=
  match tr with
  | [] => []
  | EvLog lvl s :: rest => (lvl, s) :: logs rest
  | _ :: rest => logs rest
  end.

Definition is_send (c : helper_call) : bool :=
  match c with CallSend _ _ => true | _ => false end.

Definition is_inference (c : helper_call) : bool :=
  match c with CallAnalyze _ | CallAnswer _ => true | _ => false end.

(** The media requests are the only [GET]s the program issues. *)
Definition is_get (r : http_request) : bool :=
  match method r with GET => true | POST => false end.

(** *** The outbound requests of the helpers *)

Definition vision_request (cfg : config) (image_bytes : list Byte.byte) : http_request :=
  mkRequest POST (vision_url cfg) [("Content-Type", "application/json")]
            (Some (vision_payload (b64encode image_bytes))).

Definition text_request (cfg : config) (question : json) : http_request :=
  mkRequest POST (text_url cfg) [("Content-Type", "application/json")]
            (Some (text_payload question)).

Definition send_request_of (cfg : config) (to body : json) : http_request :=
  mkRequest POST (WHATSAPP_API_URL cfg) (send_headers cfg) (Some (send_payload to body)).

Definition media_headers (cfg : config) : list (string * string) :=
  [("Authorization", "Bearer " ++ fmt_opt (WHATSAPP_TOKEN cfg))].

(** The media-resolution request for [media_id] and the media-download
    request for the URL it resolved to. *)
Definition resolve_request {rt : PyRuntime} (cfg : config) (media_id : json) : http_request :=
  mkRequest GET ("https://graph.facebook.com/v18.0/" ++ py_str media_id)
            (media_headers cfg) None.

Definition fetch_request (cfg : config) (media_url : string) : http_request :=
  mkRequest GET media_url (media_headers cfg) None.

(** *** The platform's payload schema:
    [entry[0].changes[0].value.messages[0]] *)

Definition obj_get (k : string) (v : json) : option json :=
  match v with JObj items => lookup k items | _ => None end.

Definition arr_head (v : json) : option json :=
  match v with JArr (x :: _) => Some x | _ => None end.

Definition opt_bind {A B} (o : option A) (k : A -> option B) : option B :=
  match o with Some a => k a | None => None end.

Definition get_or (k : string) (items : list (string * json)) (default : json) : json :=
  match lookup k items with Some x => x | None => default end.

(** The [value] object of a payload with a well-formed entry. *)
Definition payload_value (body : json) : option (list (string * json)) :=
  opt_bind (obj_get "entry" body) (fun entries =>
  opt_bind (arr_head entries) (fun entry =>
  opt_bind (obj_get "changes" entry) (fun changes_list =>
  opt_bind (arr_head changes_list) (fun changes =>
  opt_bind (obj_get "value" changes) (fun value =>
  match value with JObj items => Some items | _ => None end))))).

(** The first message of a payload, when it is a JSON object. *)
Definition first_message (body : json) : option (list (string * json)) :=
  opt_bind (payload_value body) (fun value =>
  opt_bind (lookup "messages" value) (fun messages =>
  opt_bind (arr_head messages) (fun message =>
  match message with JObj items => Some items | _ => None end))).

(** [request] carries a payload whose first message is [message], sent by
    [from_number]. *)
Definition carries (request : Request) (message : list (string * json))
    (from_number : json) : Prop :=
  exists body,
    request_json_body request = Some body /\
    first_message body = Some message /\
    lookup "from" message = Some from_number.

(** The kind of a message is its ["type"]. *)
Definition has_kind (message : list (string * json)) (kind : string) : Prop :=
  lookup "type" message = Some (JStr kind).

(** A kind other than image or text: what [message.get("type")] gives is
    neither of the two strings. *)
Definition other_kind (message : list (string * json)) : Prop :=
  is_str (get_or "type" message JNull) "image" = false /\
  is_str (get_or "type" message JNull) "text" = false.

(** [image.get("id") or image.get("media_id")] *)
Definition media_id_of (image : list (string * json)) : json :=
  if truthy (get_or "id" image JNull) then get_or "id" image JNull
  else get_or "media_id" image JNull.

(** [image.get("caption", "")] *)
Definition caption_of (image : list (string * json)) : json :=
  get_or "caption" image (JStr "").

(** *** Landmarks of the handler's run *)

Definition ok_reply : http_reply := mkReply 200 (BodyJson (status_dict "ok")).

(** The log lines that precede the branch taken for a message. *)
Definition prelude : trace :=
  [EvLog INFO "📩 Raw webhook payload: {body}";
   EvLog INFO "📋 Webhook value keys: {value.keys()}";
   EvLog INFO "📨 Message type: {msg_type} from {from_number}"].

Definition text_prelude : trace :=
  (prelude ++ [EvLog INFO "💬 Text from {from_number}: {text}"])%list.

Definition image_prelude : trace :=
  (prelude ++ [EvLog INFO "🖼️ Image received from {from_number}, media_id={media_id}"])%list.

Definition unsupported_prelude : trace :=
  (prelude ++ [EvLog INFO "⚠️ Unsupported message type: {msg_type}"])%list.

(** What the handler's outer [except] clauses log for an exception. *)
Definition outer_except_logs (e : exn) : trace :=
  match e with
  | KeyError _ | IndexError =>
      [EvLog ERROR "❌ Unexpected webhook structure: {e}";
       EvLog ERROR "Full body: {body}"]
  | _ => [EvLog ERROR "❌ Unexpected error: {str(e)}"]
  end.

(** The trace after an attempt, from [tr], to send [apology] to
    [from_number]: the send, and one log line more when the send fails. *)
Definition after_apology (cfg : config) (from_number : json) (apology : string)
    (w : world) (tr : trace) : trace :=
  match send_whatsapp_message cfg from_number (JStr apology) w tr with
  | (Ok _, tr') => tr'
  | (Raise _, tr') => (tr' ++ [EvLog ERROR "❌ Could not send error message to user"])%list
  end.

(** The heading line of an image reply and the caption line before it. *)
Definition analysis_heading : string := "🖼️ *Image Analysis*" ++ nl ++ nl.

Definition caption_line (caption : string) : string :=
  "📝 Caption: _" ++ caption ++ "_" ++ nl ++ nl.

(** The exceptions of a failed subscript. *)
Definition is_lookup_error (e : exn) : Prop :=
  match e with
  | KeyError _ | IndexError | TypeError _ _ => True
  | _ => False
  end.

(** *** Disclosure by the diagnostic routes *)

(** The fields of a JSON reply. *)
Definition reply_fields (reply : http_reply) : list (string * json) :=
  match reply_body_of reply with
  | BodyJson (JObj items) => items
  | _ => []
  end.

(** [secret] appears in full in some text field of [reply]. *)
Definition exposes (secret : string) (reply : http_reply) : bool :=
  existsb (fun kv => match snd kv with
                     | JStr s => contains secret s
                     | _ => false
                     end)
          (reply_fields reply).

(* ====================================================================== *)
(** ** Sample data for the examples *)

(** A runtime for the examples: exact on [None], [bool], [int] and [str];
    the other values and most exceptions are rendered as a tag, on which
    no example depends. *)
Definition sample_py_str (v : json) : string :=
  match v with
  | JNull => "None"
  | JBool true => "True"
  | JBool false => "False"
  | JInt z => str_of_int z
  | JFloat _ => "<float>"
  | JStr s => s
  | JArr _ => "<list>"
  | JObj _ => "<dict>"
  end.

Definition sample_exn_str (e : exn) : string :=
  match e with
  | TransportError msg => msg
  | ValueError msg => msg
  | KeyError _ => "<KeyError>"
  | IndexError => "<IndexError>"
  | TypeError _ _ => "<TypeError>"
  | AttributeError _ _ => "<AttributeError>"
  | JSONDecodeError => "<JSONDecodeError>"
  | HTTPStatusError _ => "<HTTPStatusError>"
  | HTTPException _ _ => "<HTTPException>"
  end.

Definition sample_runtime : PyRuntime :=
  {| py_str := sample_py_str;
     py_str_JStr := fun s => eq_refl;
     exn_str := sample_exn_str |}.

(** Configurations that pass the startup validation: with the AI
    credential, without it, and with an access token of fewer than 20
    characters. *)
Definition sample_config : config :=
  {| WHATSAPP_TOKEN := Some "EAAG-sample-access-token-0123456789";
     PHONE_NUMBER_ID := Some "15550001111";
     VERIFY_TOKEN := "mysecrettoken";
     GEMINI_API_KEY := Some "AIza-sample-key" |}.

Definition sample_config_no_ai : config :=
  {| WHATSAPP_TOKEN := Some "EAAG-sample-access-token-0123456789";
     PHONE_NUMBER_ID := Some "15550001111";
     VERIFY_TOKEN := "mysecrettoken";
     GEMINI_API_KEY := None |}.

Definition short_token_config : config :=
  {| WHATSAPP_TOKEN := Some "EAAG-short";
     PHONE_NUMBER_ID := Some "15550001111";
     VERIFY_TOKEN := "mysecrettoken";
     GEMINI_API_KEY := Some "AIza-sample-key" |}.

Definition json_response (status : Z) (j : json) : response :=
  {| status_code := status; text := ""; json_of := Some j; content := [] |}.

(** The AI endpoint's answer with one candidate. *)
Definition gemini_answer (s : string) : json :=
  JObj [("candidates", JArr [JObj [("content",
    JObj [("parts", JArr [JObj [("text", JStr s)]])])]])].

(** A world in which every request succeeds: the platform accepts sends
    and serves media, the AI endpoint answers ["A cat."]. *)
Definition friendly_world : world :=
  fun _ r =>
    match method r with
    | GET =>
        Responds {| status_code := 200; text := "";
                    json_of := Some (JObj [("url", JStr "https://cdn.example/m")]);
                    content := list_byte_of_string "JPEG" |}
    | POST =>
        if String.prefix "https://generativelanguage" (url r)
        then Responds (json_response 200 (gemini_answer "A cat."))
        else Responds (json_response 200 (JObj [("messages", JArr [])]))
    end.

(** A world in which the platform's send endpoint answers 500 and
    everything else succeeds. *)
Definition send_fails_world : world :=
  fun tr r =>
    match method r with
    | POST =>
        if String.prefix "https://generativelanguage" (url r)
        then friendly_world tr r
        else Responds {| status_code := 500; text := "server error";
                         json_of := None; content := [] |}
    | GET => friendly_world tr r
    end.

(** A world in which every request is answered with status [status]. *)
Definition status_world (status : Z) : world :=
  fun _ _ => Responds {| status_code := status; text := "";
                          json_of := None; content := [] |}.

(** The POST request that carries [body]. *)
Definition post (body : json) : Request := mkReq [] (Some body).

(** A payload with one message. *)
Definition payload_of (message : json) : json :=
  JObj [("object", JStr "whatsapp_business_account");
        ("entry", JArr [JObj [("id", JStr "0");
          ("changes", JArr [JObj [("field", JStr "messages");
            ("value", JObj [("messaging_product", JStr "whatsapp");
                            ("messages", JArr [message])])]])]])].

Definition text_message (from_number body : string) : json :=
  JObj [("from", JStr from_number); ("id", JStr "wamid.1"); ("type", JStr "text");
        ("text", JObj [("body", JStr body)])].

Definition image_message (from_number media caption : string) : json :=
  JObj [("from", JStr from_number); ("id", JStr "wamid.2"); ("type", JStr "image");
        ("image", JObj [("id", JStr media); ("caption", JStr caption)])].

Definition sample_text_request : Request :=
  post (payload_of (text_message "15551234567" "Hi")).

Definition sample_image_request : Request :=
  post (payload_of (image_message "15551234567" "MEDIA1" "My cat")).

(* ====================================================================== *)
(** ** The rest of the module *)

(** Lines 226-239.  No route calls this helper.  Despite its name it
    posts an ordinary text message, and it does not look at the
    response. *)
Definition typing_text : string := "⏳ Analyzing your image, please wait...".

Definition send_whatsapp_typing (cfg : config) (to : json) : M unit :=
  _ <- client_post (WHATSAPP_API_URL cfg) (send_headers cfg)
                   (send_payload to (JStr typing_text)) ;;
  ret tt.

(** *** More vocabulary *)

(** The names [validate_env_vars] collects in [missing]. *)
Definition missing_vars (cfg : config) : list string :=
  ((if opt_truthy (WHATSAPP_TOKEN cfg) then [] else ["WHATSAPP_TOKEN"]) ++
   (if opt_truthy (PHONE_NUMBER_ID cfg) then [] else ["PHONE_NUMBER_ID"]))%list.

(** [len(s)]: the characters of a UTF-8 string are its bytes that are not
    continuation bytes. *)
Fixpoint char_count (s : string) : nat :=
  match s with
  | EmptyString => O
  | String c rest => if is_continuation c then char_count rest else S (char_count rest)
  end.

(** Text as Python holds it never starts with a continuation byte. *)
Definition starts_a_character (s : string) : Prop :=
  match s with
  | EmptyString => True
  | String c _ => is_continuation c = false
  end.

(** The download URL a response to the media-resolution request yields,
    if any: the response must be a success whose body decodes to an
    object with a text ["url"]. *)
Definition resolved_url (o : outcome) : option string :=
  match o with
  | Fails _ => None
  | Responds r =>
      if is_success (status_code r) then
        match json_of r with
        | Some (JObj meta) =>
            match lookup "url" meta with
            | Some (JStr u) => Some u
            | _ => None
            end
        | _ => None
        end
      else None
  end.

Definition is_download (c : helper_call) : bool :=
  match c with CallDownload _ => true | _ => false end.

(** Every send among [cs] is addressed to [from_number]. *)
Definition sends_only_to (from_number : json) (cs : list helper_call) : Prop :=
  Forall (fun c => match c with
                   | CallSend to _ => to = from_number
                   | _ => True
                   end) cs.

(** The most one webhook event can cost: two sends (a reply and an
    apology), one inference call, one media fetch, five requests. *)
Definition within_budget (from_number : json) (cs : list helper_call)
    (rs : list http_request) : Prop :=
  sends_only_to from_number cs /\
  (List.length (filter is_send cs) <= 2)%nat /\
  (List.length (filter is_inference cs) <= 1)%nat /\
  (List.length (filter is_download cs) <= 1)%nat /\
  (List.length rs <= 5)%nat.

(** A world in which the platform accepts a send with status 200 but an
    empty body, which does not decode, and everything else succeeds. *)
Definition empty_send_reply_world : world :=
  fun tr r =>
    match method r with
    | POST =>
        if String.prefix "https://generativelanguage" (url r)
        then friendly_world tr r
        else Responds {| status_code := 200; text := "";
                         json_of := None; content := [] |}
    | GET => friendly_world tr r
    end.

(** A payload whose one change carries two messages. *)
Definition two_message_payload (first second : json) : json :=
  JObj [("entry", JArr [JObj [("changes", JArr [JObj [("value",
    JObj [("messages", JArr [first; second])])]])]])].

(** An answer of the text model with two candidates, the first of which
    has two parts. *)
Definition two_candidate_answer : json :=
  JObj [("candidates", JArr [
    JObj [("content", JObj [("parts", JArr [JObj [("text", JStr "first")];
                                            JObj [("text", JStr "second")]])])];
    JObj [("content", JObj [("parts", JArr [JObj [("text", JStr "other")]])])]])].

(** The five requests the program knows how to make: the two media
    requests, the two inference requests and the send. *)
Definition known_request {rt : PyRuntime} (cfg : config) (r : http_request) : Prop :=
  (exists media_id, r = resolve_request cfg media_id) \/
  (exists media_url, r = fetch_request cfg media_url) \/
  (exists image_bytes, r = vision_request cfg image_bytes) \/
  (exists question, r = text_request cfg question) \/
  (exists to body, r = send_request_of cfg to body).

Definition only_known {rt : PyRuntime} (cfg : config) (tr : trace) : Prop :=
  Forall (known_request cfg) (requests tr).

(* ====================================================================== *)
(** ** Properties *)

#[local] Open Scope list_scope.

(** *** The model on concrete inputs *)

(** The test vectors of RFC 4648, section 10. *)
Example b64encode_rfc4648 :
  map (fun s => b64encode (list_byte_of_string s))
      ["f"; "fo"; "foo"; "foob"; "fooba"; "foobar"]
  = ["Zg=="; "Zm8="; "Zm9v"; "Zm9vYg=="; "Zm9vYmE="; "Zm9vYmFy"].
Proof. reflexivity. Qed.

(** Slicing counts characters, not bytes: the warning sign is three bytes
    long and is followed by a variation selector of three more. *)
Example take_chars_counts_characters :
  String.length "⚠️ Sorry" = 12%nat /\
  String.length (take_chars 1 "⚠️ Sorry") = 3%nat /\
  take_chars 20 "EAAG-sample-access-token-0123456789" = "EAAG-sample-access-t" /\
  take_chars 20 "EAAG-short" = "EAAG-short".
Proof. repeat split. Qed.

Example contains_examples :
  contains "131030" "(#131030) Recipient phone number not in allowed list" = true /\
  contains "entry" "a status update" = false /\
  contains "" "" = true.
Proof. repeat split. Qed.

Example params_get_keeps_last :
  params_get "hub.mode" [("hub.mode", "a"); ("x", "y"); ("hub.mode", "subscribe")]
  = Some "subscribe".
Proof. reflexivity. Qed.

Example truthy_examples :
  map truthy [JNull; JBool false; JInt 0; JFloat 0%float; JFloat (-0)%float; JStr "";
              JArr []; JObj []]
  = [false; false; false; false; false; false; false; false] /\
  map truthy [JBool true; JInt 7; JFloat nan; JStr "0"; JArr [JNull]; JObj [("k", JNull)]]
  = [true; true; true; true; true; true].
Proof. split; reflexivity. Qed.

Example load_config_default_verify_token :
  VERIFY_TOKEN (load_config (fun _ => None)) = "mysecrettoken".
Proof. reflexivity. Qed.

(** Startup fails without the mandatory variables and succeeds, with a
    warning, without the AI key. *)
Example validate_env_vars_examples :
  fst (validate_env_vars (load_config (fun _ => None)) friendly_world [])
  = Raise (ValueError "Missing environment variables: WHATSAPP_TOKEN, PHONE_NUMBER_ID") /\
  validate_env_vars sample_config_no_ai friendly_world []
  = (Ok tt,
     [EvLog WARNING "⚠️ GEMINI_API_KEY not set - AI features will be disabled";
      EvLog INFO "✅ Environment variables validated";
      EvLog INFO "📱 Phone Number ID: {PHONE_NUMBER_ID}";
      EvLog INFO "🔑 WhatsApp Token: {WHATSAPP_TOKEN[:20]}...";
      EvLog INFO "🤖 Gemini API: {'Connected' if GEMINI_API_KEY else 'Not configured'}"]) /\
  fst (validate_env_vars sample_config friendly_world []) = Ok tt.
Proof. repeat split. Qed.

(** A text message in a world where everything succeeds. *)
Example text_message_run :
  serve (handle_webhook (rt:=sample_runtime) sample_config sample_text_request) friendly_world
  = (ok_reply,
     text_prelude ++
     [EvEnter (CallAnswer (JStr "Hi"));
      EvHttp (text_request sample_config (JStr "Hi"));
      EvEnter (CallSend (JStr "15551234567") (JStr "A cat."));
      EvHttp (send_request_of sample_config (JStr "15551234567") (JStr "A cat."));
      EvLog INFO "✅ Message sent to {to}: {resp.json()}";
      EvLog INFO "✅ Answer sent successfully"]).
Proof. reflexivity. Qed.

(** Bodies that are not objects: a number is not iterable, and the
    [TypeError] ends in the generic acknowledgment. *)
Example number_body_run :
  serve (handle_webhook (rt:=sample_runtime) sample_config (post (JInt 5))) friendly_world
  = (ok_reply,
     [EvLog INFO "📩 Raw webhook payload: {body}";
      EvLog ERROR "❌ Unexpected error: {str(e)}"]).
Proof. reflexivity. Qed.

(** *** Traces *)

Lemma enters_app (tr1 tr2 : trace) :
  enters (tr1 ++ tr2) = enters tr1 ++ enters tr2.
Proof.
  induction tr1 as [|ev tr1 IH]; [reflexivity|].
  destruct ev; simpl; now rewrite IH.
Qed.

Lemma requests_app (tr1 tr2 : trace) :
  requests (tr1 ++ tr2) = requests tr1 ++ requests tr2.
Proof.
  induction tr1 as [|ev tr1 IH]; [reflexivity|].
  destruct ev; simpl; now rewrite IH.
Qed.

(** *** Tactics for runs *)

(** Unfold the monad and the HTTP client's wrappers, and reduce. *)
Ltac run :=
  cbv beta iota zeta delta
    [bind try_except lift ret raise log enter emit client_post client_get
     send_request raise_for_status response_json fst snd negb].

(** Case analysis on the innermost scrutinee of [x]. *)
Ltac destruct_inner x :=
  first [ match x with
          | context [match ?y with _ => _ end] => destruct_inner y
          end
        | destruct x eqn:? ].

(** Run a computation to its leaves, splitting on every outcome met on
    the way. *)
Ltac crunch :=
  repeat (run;
          match goal with
          | |- context [match ?x with _ => _ end] => destruct_inner x
          end);
  run.

(** Close a goal [exists r tr', run = (r, tr') /\ enters tr' = _ /\
    requests tr' = _] at a leaf. *)
Ltac trace_facts :=
  eexists _, _; split; [reflexivity|];
  rewrite !enters_app, !requests_app; cbn [enters requests app];
  rewrite ?app_nil_r; split; reflexivity.

(** *** The verification handshake *)

Lemma verify_webhook_accept (cfg : config) (request : Request) (w : world) :
  params_get "hub.mode" (query_params request) = Some "subscribe" ->
  params_get "hub.verify_token" (query_params request) = Some (VERIFY_TOKEN cfg) ->
  fst (serve (verify_webhook cfg request) w) =
  mkReply 200 (BodyText match params_get "hub.challenge" (query_params request) with
                        | Some c => c
                        | None => ""
                        end).
Proof.
  intros Hm Ht. unfold serve, verify_webhook, bind, log, emit, ret.
  rewrite Hm, Ht. simpl. rewrite String.eqb_refl. simpl.
  now destruct (params_get "hub.challenge" (query_params request)).
Qed.

Lemma verify_webhook_reject (cfg : config) (request : Request) (w : world) :
  ~ (params_get "hub.mode" (query_params request) = Some "subscribe" /\
     params_get "hub.verify_token" (query_params request) = Some (VERIFY_TOKEN cfg)) ->
  fst (serve (verify_webhook cfg request) w) =
  mkReply 403 (BodyJson (JObj [("detail", JStr "Verification failed")])).
Proof.
  intros H. unfold serve, verify_webhook, bind, log, emit, ret, raise.
  destruct (params_get "hub.mode" (query_params request)) as [m|]; [|reflexivity].
  destruct (params_get "hub.verify_token" (query_params request)) as [t|]; [|reflexivity].
  simpl.
  destruct (String.eqb_spec m "subscribe") as [->|]; [|reflexivity].
  destruct (String.eqb_spec t (VERIFY_TOKEN cfg)) as [->|]; [|reflexivity].
  exfalso. now apply H.
Qed.

(** C3.  [GET /webhook] answers 200 with the value of [hub.challenge] as
    its plain-text body exactly when [hub.mode] is ["subscribe"] and
    [hub.verify_token] is the configured verify token; every other
    request is answered 403. *)
Theorem verify_webhook_accepts_exactly :
  forall (cfg : config) (request : Request) (w : world),
    let mode := params_get "hub.mode" (query_params request) in
    let token := params_get "hub.verify_token" (query_params request) in
    let challenge := params_get "hub.challenge" (query_params request) in
    let reply := fst (serve (verify_webhook cfg request) w) in
    (mode = Some "subscribe" /\ token = Some (VERIFY_TOKEN cfg) ->
     reply_status reply = 200 /\
     forall c, challenge = Some c -> reply_body_of reply = BodyText c) /\
    (~ (mode = Some "subscribe" /\ token = Some (VERIFY_TOKEN cfg)) ->
     reply = mkReply 403 (BodyJson (JObj [("detail", JStr "Verification failed")]))) /\
    (reply_status reply = 200 <->
     mode = Some "subscribe" /\ token = Some (VERIFY_TOKEN cfg)).
Proof.
  intros cfg request w. cbv zeta.
  assert (Hdec :
    (params_get "hub.mode" (query_params request) = Some "subscribe" /\
     params_get "hub.verify_token" (query_params request) = Some (VERIFY_TOKEN cfg)) \/
    ~ (params_get "hub.mode" (query_params request) = Some "subscribe" /\
       params_get "hub.verify_token" (query_params request) = Some (VERIFY_TOKEN cfg))).
  { destruct (params_get "hub.mode" (query_params request)) as [m|];
      [|right; intros [? _]; discriminate].
    destruct (params_get "hub.verify_token" (query_params request)) as [t|];
      [|right; intros [_ ?]; discriminate].
    destruct (string_dec m "subscribe") as [->|Hm];
      [|right; intros [E _]; injection E; exact Hm].
    destruct (string_dec t (VERIFY_TOKEN cfg)) as [->|Ht];
      [left; now split|right; intros [_ E]; injection E; exact Ht]. }
  split; [|split].
  - intros [Hm Ht]. rewrite (verify_webhook_accept cfg request w Hm Ht).
    split; [reflexivity|]. intros c Hc. now rewrite Hc.
  - apply verify_webhook_reject.
  - split; [|intros [Hm Ht]; now rewrite (verify_webhook_accept cfg request w Hm Ht)].
    intros Hs. destruct Hdec as [H|H]; [exact H|].
    rewrite (verify_webhook_reject cfg request w H) in Hs. discriminate Hs.
Qed.

Lemma verify_webhook_accepts_exactly_witness :
  let request := mkReq [("hub.mode", "subscribe");
                        ("hub.verify_token", "mysecrettoken");
                        ("hub.challenge", "XYZ")] None in
  (params_get "hub.mode" (query_params request) = Some "subscribe" /\
   params_get "hub.verify_token" (query_params request) = Some (VERIFY_TOKEN sample_config)) /\
  reply_status (fst (serve (verify_webhook sample_config request) friendly_world)) = 200 /\
  reply_body_of (fst (serve (verify_webhook sample_config request) friendly_world))
  = BodyText "XYZ".
Proof.
  intros request.
  assert (H : params_get "hub.mode" (query_params request) = Some "subscribe" /\
              params_get "hub.verify_token" (query_params request)
              = Some (VERIFY_TOKEN sample_config)) by (split; reflexivity).
  split; [exact H|].
  destruct (proj1 (verify_webhook_accepts_exactly sample_config request friendly_world) H)
    as [Hstatus Hbody].
  split; [exact Hstatus|]. apply Hbody. reflexivity.
Defined.

(** C10.  The verifier's decision is a function of [hub.mode] and
    [hub.verify_token] alone; a matching request is answered 200 also
    when [hub.challenge] is absent, with an empty body, and a challenge
    that is present is echoed whatever it is. *)
Theorem verify_webhook_decision_ignores_challenge :
  forall (cfg : config),
    (forall (r1 r2 : Request) (w1 w2 : world),
        params_get "hub.mode" (query_params r1) = params_get "hub.mode" (query_params r2) ->
        params_get "hub.verify_token" (query_params r1)
        = params_get "hub.verify_token" (query_params r2) ->
        reply_status (fst (serve (verify_webhook cfg r1) w1))
        = reply_status (fst (serve (verify_webhook cfg r2) w2))) /\
    (forall (r : Request) (w : world),
        params_get "hub.mode" (query_params r) = Some "subscribe" ->
        params_get "hub.verify_token" (query_params r) = Some (VERIFY_TOKEN cfg) ->
        params_get "hub.challenge" (query_params r) = None ->
        fst (serve (verify_webhook cfg r) w) = mkReply 200 (BodyText "")) /\
    (forall (r : Request) (w : world) (c : string),
        params_get "hub.mode" (query_params r) = Some "subscribe" ->
        params_get "hub.verify_token" (query_params r) = Some (VERIFY_TOKEN cfg) ->
        params_get "hub.challenge" (query_params r) = Some c ->
        fst (serve (verify_webhook cfg r) w) = mkReply 200 (BodyText c)).
Proof.
  intros cfg. split; [|split].
  - intros r1 r2 w1 w2 Hm Ht.
    unfold serve, verify_webhook, bind, log, emit, ret, raise.
    rewrite Hm, Ht.
    destruct (params_get "hub.mode" (query_params r2)) as [m|]; [|reflexivity].
    destruct (params_get "hub.verify_token" (query_params r2)) as [t|]; [|reflexivity].
    destruct (String.eqb m "subscribe" && String.eqb t (VERIFY_TOKEN cfg)); [|reflexivity].
    now destruct (params_get "hub.challenge" (query_params r1)),
                 (params_get "hub.challenge" (query_params r2)).
  - intros r w Hm Ht Hc. rewrite (verify_webhook_accept cfg r w Hm Ht). now rewrite Hc.
  - intros r w c Hm Ht Hc. rewrite (verify_webhook_accept cfg r w Hm Ht). now rewrite Hc.
Qed.

Lemma verify_webhook_decision_ignores_challenge_witness :
  fst (serve (verify_webhook sample_config
                (mkReq [("hub.mode", "subscribe");
                        ("hub.verify_token", "mysecrettoken")] None)) friendly_world)
  = mkReply 200 (BodyText "")
  /\ fst (serve (verify_webhook sample_config
                   (mkReq [("hub.challenge", "<script>"); ("hub.mode", "subscribe");
                           ("hub.verify_token", "mysecrettoken")] None)) friendly_world)
     = mkReply 200 (BodyText "<script>").
Proof.
  destruct (verify_webhook_decision_ignores_challenge sample_config) as [_ [Habs Hecho]].
  split.
  - apply Habs; reflexivity.
  - apply Hecho; reflexivity.
Defined.

(** *** Walking the payload *)

Lemma obj_get_getitem (k : string) (v x : json) :
  obj_get k v = Some x -> py_getitem v k = Ok x /\ py_in k v = Ok true.
Proof.
  destruct v; try discriminate. simpl. intros ->. now split.
Qed.

Lemma arr_head_getitem0 (v x : json) :
  arr_head v = Some x -> py_getitem0 v = Ok x /\ truthy v = true.
Proof.
  destruct v as [| | | | |[|y ys]|]; try discriminate. simpl. intros [= ->]. now split.
Qed.

(** With a well-formed entry whose value has no ["messages"], the [try]
    block returns [{"status": "no messages"}] after two log lines. *)
Lemma webhook_try_block_no_messages
    {rt : PyRuntime} (cfg : config) (body : json) (value : list (string * json))
    (w : world) (tr : trace) :
  payload_value body = Some value ->
  lookup "messages" value = None ->
  webhook_try_block cfg body w tr =
  (Ok (Some (status_dict "no messages")),
   tr ++ [EvLog INFO "📋 Webhook value keys: {value.keys()}"]
      ++ [EvLog INFO "ℹ️ Webhook received but no messages (likely a status update)"]).
Proof.
  unfold payload_value, opt_bind. intros Hv Hm.
  destruct (obj_get "entry" body) as [entries|] eqn:E1; [|discriminate].
  destruct (arr_head entries) as [entry|] eqn:E2; [|discriminate].
  destruct (obj_get "changes" entry) as [cl|] eqn:E3; [|discriminate].
  destruct (arr_head cl) as [changes|] eqn:E4; [|discriminate].
  destruct (obj_get "value" changes) as [[]|] eqn:E5; try discriminate.
  injection Hv as ->.
  apply obj_get_getitem in E1, E3, E5. apply arr_head_getitem0 in E2, E4.
  destruct E1 as [G1 I1], E3 as [G3 _], E5 as [G5 _], E2 as [G2 _], E4 as [G4 _].
  unfold webhook_try_block. run.
  rewrite I1. cbn [negb]. rewrite G1, G2, G3, G4, G5. cbn [py_keys py_get].
  rewrite Hm. cbn [truthy negb]. now rewrite <- app_assoc.
Qed.

(** With a first message that is an object carrying ["from"], the [try]
    block logs two lines and runs the branch for the message's type. *)
Lemma webhook_try_block_message
    {rt : PyRuntime} (cfg : config) (body : json) (message : list (string * json))
    (from_number : json) (w : world) (tr : trace) :
  first_message body = Some message ->
  lookup "from" message = Some from_number ->
  webhook_try_block cfg body w tr =
  let msg_type := match lookup "type" message with Some t => t | None => JNull end in
  let branch :=
    if is_str msg_type "image" then handle_image cfg (JObj message) from_number
    else if is_str msg_type "text" then handle_text cfg (JObj message) from_number
    else handle_unsupported cfg from_number in
  match branch w (tr ++ [EvLog INFO "📋 Webhook value keys: {value.keys()}"]
                     ++ [EvLog INFO "📨 Message type: {msg_type} from {from_number}"]) with
  | (Ok _, tr') => (Ok None, tr')
  | (Raise e, tr') => (Raise e, tr')
  end.
Proof.
  unfold first_message, payload_value, opt_bind. intros Hm Hf.
  destruct (obj_get "entry" body) as [entries|] eqn:E1; [|discriminate].
  destruct (arr_head entries) as [entry|] eqn:E2; [|discriminate].
  destruct (obj_get "changes" entry) as [cl|] eqn:E3; [|discriminate].
  destruct (arr_head cl) as [changes|] eqn:E4; [|discriminate].
  destruct (obj_get "value" changes) as [[]|] eqn:E5; try discriminate.
  destruct (lookup "messages" items) as [messages|] eqn:E6; [|discriminate].
  destruct (arr_head messages) as [[]|] eqn:E7; try discriminate.
  injection Hm as ->.
  apply obj_get_getitem in E1, E3, E5. apply arr_head_getitem0 in E2, E4, E7.
  destruct E1 as [G1 I1], E3 as [G3 _], E5 as [G5 _], E2 as [G2 _], E4 as [G4 _],
           E7 as [G7 T7].
  unfold webhook_try_block. run.
  rewrite I1. cbn [negb]. rewrite G1, G2, G3, G4, G5. cbn [py_keys py_get].
  rewrite E6, T7. cbn [negb]. rewrite G7. cbn [py_getitem py_get]. rewrite Hf.
  cbv zeta. rewrite <- app_assoc.
  destruct (lookup "type" message) as [t|]; reflexivity.
Qed.

(** *** The helpers, one by one *)

(** [send_whatsapp_message] is entered once and issues one request,
    whatever comes of it. *)
Lemma send_whatsapp_message_trace (cfg : config) (to body : json) (w : world) (tr : trace) :
  exists r tr',
    send_whatsapp_message cfg to body w tr = (r, tr') /\
    enters tr' = enters tr ++ [CallSend to body] /\
    requests tr' = requests tr ++ [send_request_of cfg to body].
Proof.
  unfold send_whatsapp_message. fold (send_request_of cfg to body).
  crunch; trace_facts.
Qed.

(** [answer_question] never raises; it is entered once and issues at most
    the one request to the text model. *)
Lemma answer_question_trace (cfg : config) (question : json) (w : world) (tr : trace) :
  exists a tr',
    answer_question cfg question w tr = (Ok a, tr') /\
    enters tr' = enters tr ++ [CallAnswer question] /\
    requests tr' = requests tr ++
      (if opt_truthy (GEMINI_API_KEY cfg) then [text_request cfg question] else []).
Proof.
  unfold answer_question. fold (text_request cfg question).
  destruct (opt_truthy (GEMINI_API_KEY cfg)); crunch; trace_facts.
Qed.

(** So does [analyze_image], with the request to the vision model. *)
Lemma analyze_image_trace (cfg : config) (image_bytes : list Byte.byte) (w : world) (tr : trace) :
  exists a tr',
    analyze_image cfg image_bytes w tr = (Ok a, tr') /\
    enters tr' = enters tr ++ [CallAnalyze image_bytes] /\
    requests tr' = requests tr ++
      (if opt_truthy (GEMINI_API_KEY cfg) then [vision_request cfg image_bytes] else []).
Proof.
  unfold analyze_image. fold (vision_request cfg image_bytes).
  destruct (opt_truthy (GEMINI_API_KEY cfg)); crunch; trace_facts.
Qed.

(** [download_whatsapp_media] is entered once; it always issues the
    media-resolution request and, when it returns, has issued exactly one
    media-download request after it. *)
Lemma download_whatsapp_media_trace
    {rt : PyRuntime} (cfg : config) (media_id : json) (w : world) (tr : trace) :
  exists r tr',
    download_whatsapp_media cfg media_id w tr = (r, tr') /\
    enters tr' = enters tr ++ [CallDownload media_id] /\
    match r with
    | Ok _ =>
        exists u, requests tr' =
                  requests tr ++ [resolve_request cfg media_id; fetch_request cfg u]
    | Raise _ =>
        requests tr' = requests tr ++ [resolve_request cfg media_id] \/
        exists u, requests tr' =
                  requests tr ++ [resolve_request cfg media_id; fetch_request cfg u]
    end.
Proof.
  unfold download_whatsapp_media.
  fold (media_headers cfg). fold (resolve_request cfg media_id).
  crunch;
    (eexists _, _; split; [reflexivity|];
     rewrite !enters_app, !requests_app; cbn [enters requests app];
     rewrite ?app_nil_r; split; [reflexivity|]);
    try (left; reflexivity);
    try (right; eexists; rewrite <- app_assoc; reflexivity);
    try (eexists; rewrite <- app_assoc; reflexivity).
Qed.

(** The apology block never raises: it is one send, and a log line when
    the send fails. *)
Lemma apologize_trace (cfg : config) (from_number : json) (apology : string)
    (w : world) (tr : trace) :
  exists tr',
    apologize cfg from_number apology w tr = (Ok tt, tr') /\
    enters tr' = enters tr ++ [CallSend from_number (JStr apology)] /\
    requests tr' = requests tr ++ [send_request_of cfg from_number (JStr apology)] /\
    match send_whatsapp_message cfg from_number (JStr apology) w tr with
    | (Ok _, tr_s) => tr' = tr_s
    | (Raise _, tr_s) =>
        tr' = tr_s ++ [EvLog ERROR "❌ Could not send error message to user"]
    end.
Proof.
  destruct (send_whatsapp_message_trace cfg from_number (JStr apology) w tr)
    as (r & tr_s & Hrun & He & Hr).
  unfold apologize. run. rewrite Hrun.
  destruct r as [j|e]; eexists; (split; [reflexivity|]).
  - repeat split; assumption.
  - rewrite enters_app, requests_app, He, Hr. cbn. rewrite !app_nil_r. repeat split.
Qed.

(** What [send_whatsapp_message] can raise: a transport error, an HTTP
    status error for a response that is not a success, or a decoding
    error for a success whose body is not JSON. *)
Lemma send_whatsapp_message_raises (cfg : config) (to body : json) (w : world)
    (tr tr' : trace) (e : exn) :
  send_whatsapp_message cfg to body w tr = (Raise e, tr') ->
  (exists msg, e = TransportError msg) \/
  (exists r, e = HTTPStatusError r /\ is_success (status_code r) = false) \/
  e = JSONDecodeError.
Proof.
  unfold send_whatsapp_message. crunch; intros [= <- <-]; eauto.
Qed.

(** *** The three branches, in terms of the helpers' runs *)

Lemma handle_text_run
    {rt : PyRuntime} (cfg : config) (message : list (string * json))
    (from_number t question : json) (w : world) (tr : trace) :
  lookup "text" message = Some t ->
  obj_get "body" t = Some question ->
  handle_text cfg (JObj message) from_number w tr =
  match answer_question cfg question w
          (tr ++ [EvLog INFO "💬 Text from {from_number}: {text}"]) with
  | (Ok answer, tr1) =>
      match send_whatsapp_message cfg from_number answer w tr1 with
      | (Ok _, tr2) => (Ok tt, tr2 ++ [EvLog INFO "✅ Answer sent successfully"])
      | (Raise _, tr2) =>
          apologize cfg from_number text_apology w
            (tr2 ++ [EvLog ERROR "❌ Error answering question: {e}"])
      end
  | (Raise _, tr1) =>
      apologize cfg from_number text_apology w
        (tr1 ++ [EvLog ERROR "❌ Error answering question: {e}"])
  end.
Proof.
  intros Ht Hb. apply obj_get_getitem in Hb. destruct Hb as [Hb _].
  unfold handle_text. run. cbn [py_getitem]. rewrite Ht, Hb.
  destruct (answer_question cfg question w _) as [[answer|e] tr1]; [|reflexivity].
  destruct (send_whatsapp_message cfg from_number answer w tr1) as [[j|e] tr2]; reflexivity.
Qed.

Lemma handle_image_run
    {rt : PyRuntime} (cfg : config) (message image : list (string * json))
    (from_number : json) (w : world) (tr : trace) :
  lookup "image" message = Some (JObj image) ->
  handle_image cfg (JObj message) from_number w tr =
  let on_error e tr' :=
    apologize cfg from_number (image_apology e) w
      (tr' ++ [EvLog ERROR "❌ Error processing image: {str(e)}"]) in
  match download_whatsapp_media cfg (media_id_of image) w
          (tr ++ [EvLog INFO "🖼️ Image received from {from_number}, media_id={media_id}"]) with
  | (Raise e, tr1) => on_error e tr1
  | (Ok image_bytes, tr1) =>
      match analyze_image cfg image_bytes w
              (tr1 ++ [EvLog INFO "✅ Downloaded image: {len(image_bytes)} bytes"]) with
      | (Raise e, tr2) => on_error e tr2
      | (Ok analysis, tr2) =>
          match py_slice100 analysis with
          | Raise e => on_error e tr2
          | Ok _ =>
              match send_whatsapp_message cfg from_number
                      (JStr (image_reply (caption_of image) analysis)) w
                      (tr2 ++ [EvLog INFO "🤖 Analysis complete: {analysis[:100]}..."]) with
              | (Ok _, tr3) => (Ok tt, tr3 ++ [EvLog INFO "✅ Reply sent successfully"])
              | (Raise (HTTPStatusError r), tr3) =>
                  (Ok tt,
                   tr3 ++ [EvLog ERROR "❌ Failed to send reply: {e}"] ++
                   (if contains "131030" (text r)
                    then [EvLog ERROR "💡 TIP: Add this phone number to your allowed list in Meta Dashboard!"]
                    else []))
              | (Raise e, tr3) => on_error e tr3
              end
          end
      end
  end.
Proof.
  intros Hi. unfold handle_image, media_id_of, caption_of, get_or. run.
  cbn [py_getitem py_get]. rewrite Hi. run. cbn [py_get].
  destruct (lookup "id" image) as [id|]; [destruct (truthy id)|cbn [truthy]]; run;
    cbn [py_getitem py_get]; rewrite ?Hi; run.
  all: destruct (download_whatsapp_media cfg _ w _) as [[image_bytes|e] tr1]; [|reflexivity].
  all: destruct (analyze_image cfg image_bytes w _) as [[analysis|e] tr2]; [|reflexivity].
  all: destruct (py_slice100 analysis) as [sl|e]; [|reflexivity].
  all: destruct (send_whatsapp_message cfg from_number _ w _) as [[j|e] tr3]; [reflexivity|].
  all: destruct e; try reflexivity.
  all: destruct (contains "131030" (text resp)); rewrite <- ?app_assoc, ?app_nil_r; reflexivity.
Qed.

Lemma handle_unsupported_run (cfg : config) (from_number : json) (w : world) (tr : trace) :
  handle_unsupported cfg from_number w tr =
  match send_whatsapp_message cfg from_number (JStr unsupported_message) w
          (tr ++ [EvLog INFO "⚠️ Unsupported message type: {msg_type}"]) with
  | (Ok _, tr1) => (Ok tt, tr1)
  | (Raise e, tr1) => (Raise e, tr1)
  end.
Proof.
  unfold handle_unsupported. run.
  destruct (send_whatsapp_message cfg from_number _ w _) as [[j|e] tr1]; reflexivity.
Qed.

(** *** The handler around the [try] block *)

Lemma handle_webhook_run
    {rt : PyRuntime} (cfg : config) (request : Request) (body : json) (w : world) :
  request_json_body request = Some body ->
  serve (handle_webhook cfg request) w =
  match webhook_try_block cfg body w [EvLog INFO "📩 Raw webhook payload: {body}"] with
  | (Ok (Some d), tr) => (mkReply 200 (BodyJson d), tr)
  | (Ok None, tr) => (ok_reply, tr)
  | (Raise (KeyError _ | IndexError), tr) =>
      (ok_reply, tr ++ [EvLog ERROR "❌ Unexpected webhook structure: {e}";
                        EvLog ERROR "Full body: {body}"])
  | (Raise _, tr) => (ok_reply, tr ++ [EvLog ERROR "❌ Unexpected error: {str(e)}"])
  end.
Proof.
  intros Hb. unfold serve, handle_webhook. run. rewrite Hb. cbn [app].
  destruct (webhook_try_block cfg body w _) as [[[d|]|e] tr]; try reflexivity.
  destruct e; rewrite <- ?app_assoc; reflexivity.
Qed.

(** A payload whose first message carries a sender is answered
    [{"status": "ok"}] after the branch for its type has run, whether
    that branch returns or raises. *)
Lemma handle_webhook_message
    {rt : PyRuntime} (cfg : config) (request : Request) (body : json)
    (message : list (string * json)) (from_number : json) (w : world) :
  request_json_body request = Some body ->
  first_message body = Some message ->
  lookup "from" message = Some from_number ->
  let msg_type := get_or "type" message JNull in
  let branch :=
    if is_str msg_type "image" then handle_image cfg (JObj message) from_number
    else if is_str msg_type "text" then handle_text cfg (JObj message) from_number
    else handle_unsupported cfg from_number in
  fst (serve (handle_webhook cfg request) w) = ok_reply /\
  match branch w prelude with
  | (Ok _, tr) => snd (serve (handle_webhook cfg request) w) = tr
  | (Raise e, tr) =>
      snd (serve (handle_webhook cfg request) w) = tr ++ outer_except_logs e
  end.
Proof.
  intros Hb Hm Hf. cbv zeta.
  rewrite (handle_webhook_run cfg request body w Hb).
  rewrite (webhook_try_block_message cfg body message from_number w _ Hm Hf).
  cbv zeta. unfold get_or, prelude. cbn [app].
  match goal with
  | |- context [(if ?c then ?a else ?b) w ?t] =>
      destruct ((if c then a else b) w t) as [[u|e] tr]
  end.
  - split; reflexivity.
  - destruct e; split; reflexivity.
Qed.

Lemma outer_except_logs_silent (e : exn) :
  enters (outer_except_logs e) = [] /\ requests (outer_except_logs e) = [].
Proof. destruct e; split; reflexivity. Qed.

(* ====================================================================== *)
(** ** The POST handler *)

(** What the [try] block of the handler can return early. *)
Lemma webhook_try_block_returns
    {rt : PyRuntime} (cfg : config) (body : json) (w : world) (tr tr' : trace) (d : json) :
  webhook_try_block cfg body w tr = (Ok (Some d), tr') ->
  d = status_dict "ignored - no entry" \/ d = status_dict "no messages".
Proof.
  unfold webhook_try_block. crunch; intros [= <- <-]; auto.
Qed.

(** Once the body has been decoded, nothing leaves the handler: the reply
    is a 200 with one of the three acknowledgments. *)
Lemma handle_webhook_decoded_acknowledges
    {rt : PyRuntime} (cfg : config) (request : Request) (body : json) (w : world) :
  request_json_body request = Some body ->
  exists s,
    fst (serve (handle_webhook cfg request) w) = mkReply 200 (BodyJson (status_dict s)) /\
    (s = "ok" \/ s = "ignored - no entry" \/ s = "no messages").
Proof.
  intros Hb. rewrite (handle_webhook_run cfg request body w Hb).
  destruct (webhook_try_block cfg body w _) as [[[d|]|e] tr] eqn:E.
  - destruct (webhook_try_block_returns cfg body w _ _ d E) as [-> | ->];
      eexists; split; [reflexivity|auto|reflexivity|auto].
  - exists "ok". split; [reflexivity|auto].
  - exists "ok". split; [destruct e; reflexivity|auto].
Qed.

(** C1.  The handler decodes the request body before it enters its [try]
    block (line 271): a POST whose body is not JSON makes
    [request.json()] raise there, the exception leaves the handler, and
    the reply is a 500, not the 200 acknowledgment that every POST whose
    body does decode gets. *)
Theorem webhook_undecodable_body_escapes :
  forall (rt : PyRuntime) (cfg : config) (w : world) (qs : list (string * string)),
    handle_webhook cfg (mkReq qs None) w [] = (Raise JSONDecodeError, []) /\
    serve (handle_webhook cfg (mkReq qs None)) w
    = (mkReply 500 (BodyText "Internal Server Error"), []) /\
    (forall body, exists s,
        fst (serve (handle_webhook cfg (mkReq qs (Some body))) w)
        = mkReply 200 (BodyJson (status_dict s))).
Proof.
  intros rt cfg w qs. split; [reflexivity|]. split; [reflexivity|].
  intros body.
  destruct (handle_webhook_decoded_acknowledges cfg (mkReq qs (Some body)) body w eq_refl)
    as (s & Hs & _).
  now exists s.
Qed.

(** C8, as amended.  A body for which ["entry" in body] is [False] - an
    object without the key, and likewise a list without that element or
    a text without that substring - is answered
    [{"status": "ignored - no entry"}]; a body on which the membership
    test raises ([null], a boolean, a number) is answered
    [{"status": "ok"}] through the catch-all [except]; and a body with a
    well-formed entry whose value has no ["messages"] is answered
    [{"status": "no messages"}].  All three with status 200 and without
    any helper being invoked or any request being sent. *)
Theorem webhook_without_message_is_acknowledged :
  forall (rt : PyRuntime) (cfg : config) (request : Request) (w : world),
    (forall body,
        request_json_body request = Some body ->
        py_in "entry" body = Ok false ->
        fst (serve (handle_webhook cfg request) w)
        = mkReply 200 (BodyJson (status_dict "ignored - no entry")) /\
        enters (snd (serve (handle_webhook cfg request) w)) = [] /\
        requests (snd (serve (handle_webhook cfg request) w)) = []) /\
    (forall body e,
        request_json_body request = Some body ->
        py_in "entry" body = Raise e ->
        fst (serve (handle_webhook cfg request) w)
        = mkReply 200 (BodyJson (status_dict "ok")) /\
        enters (snd (serve (handle_webhook cfg request) w)) = [] /\
        requests (snd (serve (handle_webhook cfg request) w)) = []) /\
    (forall body value,
        request_json_body request = Some body ->
        payload_value body = Some value ->
        lookup "messages" value = None ->
        fst (serve (handle_webhook cfg request) w)
        = mkReply 200 (BodyJson (status_dict "no messages")) /\
        enters (snd (serve (handle_webhook cfg request) w)) = [] /\
        requests (snd (serve (handle_webhook cfg request) w)) = []).
Proof.
  intros rt cfg request w. split; [|split].
  - intros body Hb He.
    rewrite (handle_webhook_run cfg request _ w Hb).
    unfold webhook_try_block. run. rewrite He. run.
    repeat split.
  - intros body e Hb He.
    rewrite (handle_webhook_run cfg request _ w Hb).
    unfold webhook_try_block. run. rewrite He. run.
    destruct body; try discriminate He; injection He as <-; repeat split.
  - intros body value Hb Hv Hm.
    rewrite (handle_webhook_run cfg request _ w Hb).
    rewrite (webhook_try_block_no_messages cfg body value w _ Hv Hm).
    repeat split.
Qed.

Lemma webhook_without_message_is_acknowledged_witness :
  let no_entry := post (JObj [("object", JStr "whatsapp_business_account")]) in
  let status_update :=
    post (JObj [("entry", JArr [JObj [("changes", JArr [JObj [("value",
            JObj [("statuses", JArr [JObj [("status", JStr "delivered")]])])]])]])]) in
  (fst (serve (handle_webhook (rt:=sample_runtime) sample_config no_entry) friendly_world)
   = mkReply 200 (BodyJson (status_dict "ignored - no entry")) /\
   enters (snd (serve (handle_webhook (rt:=sample_runtime) sample_config no_entry)
                 friendly_world)) = [] /\
   requests (snd (serve (handle_webhook (rt:=sample_runtime) sample_config no_entry)
                   friendly_world)) = []) /\
  (fst (serve (handle_webhook (rt:=sample_runtime) sample_config status_update)
          friendly_world)
   = mkReply 200 (BodyJson (status_dict "no messages")) /\
   enters (snd (serve (handle_webhook (rt:=sample_runtime) sample_config status_update)
                 friendly_world)) = [] /\
   requests (snd (serve (handle_webhook (rt:=sample_runtime) sample_config status_update)
                   friendly_world)) = []).
Proof.
  intros no_entry status_update. split.
  - apply (proj1 (webhook_without_message_is_acknowledged sample_runtime sample_config
                    no_entry friendly_world)
             (JObj [("object", JStr "whatsapp_business_account")])); reflexivity.
  - eapply (proj2 (proj2 (webhook_without_message_is_acknowledged sample_runtime
                            sample_config status_update friendly_world))); reflexivity.
Defined.

(** C8 as stated fails: the body [null] has no key ["entry"], yet the
    membership test raises [TypeError] on it; the catch-all [except] logs
    the error and the handler answers [{"status": "ok"}], not
    [{"status": "ignored - no entry"}]. *)
Lemma webhook_null_body_is_not_ignored :
  let request := post JNull in
  request_json_body request = Some JNull /\
  obj_get "entry" JNull = None /\
  serve (handle_webhook (rt:=sample_runtime) sample_config request) friendly_world
  = (mkReply 200 (BodyJson (status_dict "ok")),
     [EvLog INFO "📩 Raw webhook payload: {body}";
      EvLog ERROR "❌ Unexpected error: {str(e)}"]) /\
  fst (serve (handle_webhook (rt:=sample_runtime) sample_config request) friendly_world)
  <> mkReply 200 (BodyJson (status_dict "ignored - no entry")).
Proof.
  intros request. split; [reflexivity|]. split; [reflexivity|]. split; [reflexivity|].
  discriminate.
Qed.

(** *** Unsupported kinds *)

(** C7, as amended.  When the first message carries a sender and its type
    is neither ["image"] nor ["text"], the run consists of exactly one
    helper invocation, a send of the fixed unsupported-type message to
    the sender, and of the one request that send makes; there is no
    inference or media call, and the reply is [{"status": "ok"}]. *)
Theorem unsupported_message_dispatch :
  forall (rt : PyRuntime) (cfg : config) (request : Request) (w : world)
         (body : json) (message : list (string * json)) (from_number : json),
    request_json_body request = Some body ->
    first_message body = Some message ->
    lookup "from" message = Some from_number ->
    other_kind message ->
    fst (serve (handle_webhook cfg request) w) = ok_reply /\
    enters (snd (serve (handle_webhook cfg request) w))
    = [CallSend from_number (JStr unsupported_message)] /\
    requests (snd (serve (handle_webhook cfg request) w))
    = [send_request_of cfg from_number (JStr unsupported_message)].
Proof.
  intros rt cfg request w body message from_number Hb Hm Hf [Hi Ht].
  destruct (handle_webhook_message cfg request body message from_number w Hb Hm Hf)
    as [Hreply Htrace].
  split; [exact Hreply|].
  unfold get_or in Htrace, Hi, Ht. rewrite Hi, Ht in Htrace.
  rewrite handle_unsupported_run in Htrace.
  destruct (send_whatsapp_message_trace cfg from_number (JStr unsupported_message) w
              (prelude ++ [EvLog INFO "⚠️ Unsupported message type: {msg_type}"]))
    as (r & tr & Hrun & He & Hr).
  rewrite Hrun in Htrace. destruct r as [j|e].
  - rewrite Htrace. split; assumption.
  - destruct (outer_except_logs_silent e) as [Hee Her].
    rewrite Htrace, enters_app, requests_app, He, Hr, Hee, Her. split; reflexivity.
Qed.

Lemma unsupported_message_dispatch_witness :
  let request := post (payload_of (JObj [("from", JStr "15551234567");
                                         ("type", JStr "video")])) in
  fst (serve (handle_webhook (rt:=sample_runtime) sample_config request) friendly_world)
  = ok_reply /\
  enters (snd (serve (handle_webhook (rt:=sample_runtime) sample_config request)
                friendly_world))
  = [CallSend (JStr "15551234567") (JStr unsupported_message)] /\
  requests (snd (serve (handle_webhook (rt:=sample_runtime) sample_config request)
                  friendly_world))
  = [send_request_of sample_config (JStr "15551234567") (JStr unsupported_message)].
Proof.
  eapply (unsupported_message_dispatch sample_runtime sample_config);
    [reflexivity|reflexivity|reflexivity|split; reflexivity].
Defined.

(** C7 as stated fails: a first message of kind ["video"] that carries no
    ["from"] makes [message["from"]] raise [KeyError] before the type is
    looked at; the handler logs and acknowledges, and nothing is sent. *)
Lemma unsupported_without_sender_sends_nothing :
  let message := [("id", JStr "wamid.3"); ("type", JStr "video")] in
  let request := post (payload_of (JObj message)) in
  first_message (payload_of (JObj message)) = Some message /\
  other_kind message /\
  serve (handle_webhook (rt:=sample_runtime) sample_config request) friendly_world
  = (ok_reply,
     [EvLog INFO "📩 Raw webhook payload: {body}";
      EvLog INFO "📋 Webhook value keys: {value.keys()}";
      EvLog ERROR "❌ Unexpected webhook structure: {e}";
      EvLog ERROR "Full body: {body}"]) /\
  enters (snd (serve (handle_webhook (rt:=sample_runtime) sample_config request)
                friendly_world)) = [].
Proof.
  repeat split.
Qed.

(** *** Text messages *)

(** C4, as amended.  When the first message carries a sender, has type
    ["text"] and carries a text body, [answer_question] is invoked exactly
    once, on that body, and returns some answer; the first send is to the
    sender with exactly that answer as its body.  When that send succeeds
    it is the only one; when it fails, one more send, of the fixed
    apology, is attempted.  In both cases the reply is
    [{"status": "ok"}]. *)
Theorem text_message_dispatch :
  forall (rt : PyRuntime) (cfg : config) (request : Request) (w : world)
         (body : json) (message : list (string * json)) (from_number t question : json),
    request_json_body request = Some body ->
    first_message body = Some message ->
    lookup "from" message = Some from_number ->
    has_kind message "text" ->
    lookup "text" message = Some t ->
    obj_get "body" t = Some question ->
    exists answer tr_a sent tr_s,
      answer_question cfg question w text_prelude = (Ok answer, tr_a) /\
      send_whatsapp_message cfg from_number answer w tr_a = (sent, tr_s) /\
      fst (serve (handle_webhook cfg request) w) = ok_reply /\
      enters (snd (serve (handle_webhook cfg request) w))
      = CallAnswer question :: CallSend from_number answer ::
        match sent with
        | Ok _ => []
        | Raise _ => [CallSend from_number (JStr text_apology)]
        end /\
      requests (snd (serve (handle_webhook cfg request) w))
      = (if opt_truthy (GEMINI_API_KEY cfg) then [text_request cfg question] else []) ++
        send_request_of cfg from_number answer ::
        match sent with
        | Ok _ => []
        | Raise _ => [send_request_of cfg from_number (JStr text_apology)]
        end.
Proof.
  intros rt cfg request w body message from_number t question Hb Hm Hf Hk Ht Hq.
  destruct (handle_webhook_message cfg request body message from_number w Hb Hm Hf)
    as [Hreply Htrace].
  unfold get_or in Htrace. rewrite Hk in Htrace. cbn [is_str String.eqb Ascii.eqb Bool.eqb] in Htrace.
  rewrite (handle_text_run cfg message from_number t question w prelude Ht Hq) in Htrace.
  fold text_prelude in Htrace.
  destruct (answer_question_trace cfg question w text_prelude)
    as (answer & tr_a & Ha & Hea & Hra).
  destruct (send_whatsapp_message_trace cfg from_number answer w tr_a)
    as (sent & tr_s & Hs & Hes & Hrs).
  exists answer, tr_a, sent, tr_s. rewrite Ha, Hs in Htrace.
  split; [exact Ha|]. split; [exact Hs|]. split; [exact Hreply|].
  destruct sent as [j|e].
  - rewrite Htrace, enters_app, requests_app, Hes, Hea, Hrs, Hra. cbn [enters requests].
    rewrite !app_nil_r. split; [reflexivity|]. now rewrite <- app_assoc.
  - destruct (apologize_trace cfg from_number text_apology w
                (tr_s ++ [EvLog ERROR "❌ Error answering question: {e}"]))
      as (tr_p & Hp & Hep & Hrp & _).
    rewrite Hp in Htrace.
    rewrite Htrace, Hep, Hrp, enters_app, requests_app, Hes, Hea, Hrs, Hra.
    cbn [enters requests]. rewrite !app_nil_r. split; [reflexivity|].
    now rewrite <- !app_assoc.
Qed.

Lemma text_message_dispatch_witness :
  let request := post (payload_of (text_message "15551234567" "What is this?")) in
  exists answer tr_a sent tr_s,
    answer_question sample_config (JStr "What is this?") friendly_world text_prelude
    = (Ok answer, tr_a) /\
    send_whatsapp_message sample_config (JStr "15551234567") answer friendly_world tr_a
    = (sent, tr_s) /\
    fst (serve (handle_webhook (rt:=sample_runtime) sample_config request) friendly_world)
    = ok_reply /\
    enters (snd (serve (handle_webhook (rt:=sample_runtime) sample_config request)
                  friendly_world))
    = CallAnswer (JStr "What is this?") :: CallSend (JStr "15551234567") answer ::
      match sent with
      | Ok _ => []
      | Raise _ => [CallSend (JStr "15551234567") (JStr text_apology)]
      end /\
    requests (snd (serve (handle_webhook (rt:=sample_runtime) sample_config request)
                    friendly_world))
    = (if opt_truthy (GEMINI_API_KEY sample_config)
       then [text_request sample_config (JStr "What is this?")] else []) ++
      send_request_of sample_config (JStr "15551234567") answer ::
      match sent with
      | Ok _ => []
      | Raise _ => [send_request_of sample_config (JStr "15551234567") (JStr text_apology)]
      end.
Proof.
  eapply (text_message_dispatch sample_runtime sample_config); reflexivity.
Defined.

(** C4 as stated fails on two kinds of input.  A text message without a
    ["text"] object makes [message["text"]] raise [KeyError]: there is no
    inference call and no send.  And when the platform rejects the send
    of the answer, a second send, of the apology, follows. *)
Lemma text_message_not_always_one_send :
  let bare := [("from", JStr "15551234567"); ("type", JStr "text")] in
  (first_message (payload_of (JObj bare)) = Some bare /\
   has_kind bare "text" /\
   enters (snd (serve (handle_webhook (rt:=sample_runtime) sample_config
                         (post (payload_of (JObj bare)))) friendly_world)) = []) /\
  enters (snd (serve (handle_webhook (rt:=sample_runtime) sample_config
                        (post (payload_of (text_message "15551234567" "Hi"))))
                 send_fails_world))
  = [CallAnswer (JStr "Hi");
     CallSend (JStr "15551234567") (JStr "A cat.");
     CallSend (JStr "15551234567") (JStr text_apology)].
Proof.
  repeat split.
Qed.

(** *** Image messages *)

Lemma string_app_assoc (a b c : string) : ((a ++ b) ++ c)%string = (a ++ (b ++ c))%string.
Proof. induction a as [|x a IH]; simpl; [reflexivity|now rewrite IH]. Qed.

(** The text of an image reply for a caption and an analysis that are
    strings: the analysis under its heading, after the caption line when
    the caption is not empty. *)
Lemma image_reply_text {rt : PyRuntime} (caption analysis : string) :
  image_reply (JStr caption) (JStr analysis) =
  if String.eqb caption "" then (analysis_heading ++ analysis)%string
  else (caption_line caption ++ analysis_heading ++ analysis)%string.
Proof.
  unfold image_reply, analysis_heading, caption_line. cbn [truthy].
  rewrite !py_str_JStr. destruct (String.eqb caption ""); cbn [negb];
    now rewrite !string_app_assoc.
Qed.

Lemma filter_get_app (l1 l2 : list http_request) :
  filter is_get (l1 ++ l2) = filter is_get l1 ++ filter is_get l2.
Proof. apply filter_app. Qed.

(** C5, as amended.  When the first message carries a sender, has type
    ["image"] and carries an image object, and the media fetch succeeds,
    the run makes exactly two media requests (resolution, then download)
    and invokes [analyze_image] once, on the downloaded bytes, which
    returns some analysis.  If the analysis can be sliced (it is text or
    a list), the reply composed from the caption and the analysis is sent
    to the sender; no further send follows if that send succeeds or fails
    with an HTTP status error, and one send of the apology follows if it
    fails otherwise.  If the analysis cannot be sliced, only the apology
    is sent.  The reply is [{"status": "ok"}]; for a text caption and a
    text analysis the message is the analysis under its heading, after
    the caption line when the caption is not empty. *)
Theorem image_message_dispatch :
  forall (rt : PyRuntime) (cfg : config) (request : Request) (w : world)
         (body : json) (message image : list (string * json)) (from_number : json)
         (image_bytes : list Byte.byte) (tr_d : trace),
    request_json_body request = Some body ->
    first_message body = Some message ->
    lookup "from" message = Some from_number ->
    has_kind message "image" ->
    lookup "image" message = Some (JObj image) ->
    download_whatsapp_media cfg (media_id_of image) w image_prelude = (Ok image_bytes, tr_d) ->
    exists analysis tr_a media_url,
      analyze_image cfg image_bytes w
        (tr_d ++ [EvLog INFO "✅ Downloaded image: {len(image_bytes)} bytes"])
      = (Ok analysis, tr_a) /\
      fst (serve (handle_webhook cfg request) w) = ok_reply /\
      filter is_get (requests (snd (serve (handle_webhook cfg request) w)))
      = [resolve_request cfg (media_id_of image); fetch_request cfg media_url] /\
      (let reply := JStr (image_reply (caption_of image) analysis) in
       let sent :=
         fst (send_whatsapp_message cfg from_number reply w
                (tr_a ++ [EvLog INFO "🤖 Analysis complete: {analysis[:100]}..."])) in
       enters (snd (serve (handle_webhook cfg request) w))
       = CallDownload (media_id_of image) :: CallAnalyze image_bytes ::
         match py_slice100 analysis with
         | Raise e => [CallSend from_number (JStr (image_apology e))]
         | Ok _ =>
             CallSend from_number reply ::
             match sent with
             | Ok _ | Raise (HTTPStatusError _) => []
             | Raise e => [CallSend from_number (JStr (image_apology e))]
             end
         end) /\
      (forall caption text_of_analysis,
          caption_of image = JStr caption ->
          analysis = JStr text_of_analysis ->
          image_reply (caption_of image) analysis =
          if String.eqb caption "" then (analysis_heading ++ text_of_analysis)%string
          else (caption_line caption ++ analysis_heading ++ text_of_analysis)%string).
Proof.
  intros rt cfg request w body message image from_number image_bytes tr_d
         Hb Hm Hf Hk Hi Hd.
  destruct (handle_webhook_message cfg request body message from_number w Hb Hm Hf)
    as [Hreply Htrace].
  unfold get_or in Htrace. rewrite Hk in Htrace.
  cbn [is_str String.eqb Ascii.eqb Bool.eqb] in Htrace.
  rewrite (handle_image_run cfg message image from_number w prelude Hi) in Htrace.
  fold image_prelude in Htrace. cbv zeta in Htrace. rewrite Hd in Htrace.
  destruct (download_whatsapp_media_trace cfg (media_id_of image) w image_prelude)
    as (r & tr_d' & Hd' & Hed & Hrd).
  rewrite Hd in Hd'. injection Hd' as <- <-. destruct Hrd as [media_url Hrd].
  destruct (analyze_image_trace cfg image_bytes w
              (tr_d ++ [EvLog INFO "✅ Downloaded image: {len(image_bytes)} bytes"]))
    as (analysis & tr_a & Ha & Hea & Hra).
  rewrite Ha in Htrace.
  assert (Hga : filter is_get (requests tr_a)
                = [resolve_request cfg (media_id_of image); fetch_request cfg media_url]).
  { rewrite Hra, requests_app, Hrd, !filter_get_app. cbn [requests app filter is_get method
      resolve_request fetch_request]. now destruct (opt_truthy (GEMINI_API_KEY cfg)). }
  assert (Hea' : enters tr_a = [CallDownload (media_id_of image); CallAnalyze image_bytes]).
  { rewrite Hea, enters_app, Hed. reflexivity. }
  exists analysis, tr_a, media_url.
  split; [exact Ha|]. split; [exact Hreply|].
  assert (Hapol : forall e tr,
             exists tr', apologize cfg from_number (image_apology e) w tr = (Ok tt, tr') /\
                         enters tr' = enters tr ++ [CallSend from_number (JStr (image_apology e))] /\
                         filter is_get (requests tr') = filter is_get (requests tr)).
  { intros e tr. destruct (apologize_trace cfg from_number (image_apology e) w tr)
      as (tr' & Hp & Hep & Hrp & _).
    exists tr'. repeat split; [exact Hp|exact Hep|].
    rewrite Hrp, filter_get_app. cbn. now rewrite app_nil_r. }
  cbv zeta.
  destruct (py_slice100 analysis) as [sl|e] eqn:Hsl.
  - destruct (send_whatsapp_message_trace cfg from_number
                (JStr (image_reply (caption_of image) analysis)) w
                (tr_a ++ [EvLog INFO "🤖 Analysis complete: {analysis[:100]}..."]))
      as (sent & tr_s & Hs & Hes & Hrs).
    rewrite Hs in Htrace |- *. cbn [fst].
    assert (Hgs : filter is_get (requests tr_s)
                  = [resolve_request cfg (media_id_of image); fetch_request cfg media_url]).
    { rewrite Hrs, requests_app, !filter_get_app, Hga. reflexivity. }
    assert (Hes' : enters tr_s = [CallDownload (media_id_of image); CallAnalyze image_bytes;
                                  CallSend from_number
                                    (JStr (image_reply (caption_of image) analysis))]).
    { rewrite Hes, enters_app, Hea'. reflexivity. }
    split; [|split].
    + destruct sent as [j|[]];
        try (rewrite Htrace, requests_app, filter_get_app, Hgs; cbn;
             try destruct (contains "131030" (text resp)); reflexivity);
        match type of Htrace with
        | context [apologize cfg from_number (image_apology ?e) w ?tr] =>
            destruct (Hapol e tr) as (tr_p & Hp & _ & Hgp)
        end;
        rewrite Hp in Htrace; rewrite Htrace, Hgp, requests_app, filter_get_app, Hgs;
        reflexivity.
    + destruct sent as [j|[]];
        try (rewrite Htrace, !enters_app, Hes'; cbn;
             try destruct (contains "131030" (text resp)); reflexivity);
        match type of Htrace with
        | context [apologize cfg from_number (image_apology ?e) w ?tr] =>
            destruct (Hapol e tr) as (tr_p & Hp & Hep & _)
        end;
        rewrite Hp in Htrace; rewrite Htrace, Hep, enters_app, Hes'; reflexivity.
    + intros caption s Hc ->. rewrite Hc. apply image_reply_text.
  - destruct (Hapol e (tr_a ++ [EvLog ERROR "❌ Error processing image: {str(e)}"]))
      as (tr_p & Hp & Hep & Hgp).
    rewrite Hp in Htrace. rewrite Htrace, Hgp, Hep, requests_app, enters_app,
      filter_get_app, Hga, Hea'.
    repeat split. intros caption s Hc ->. discriminate Hsl.
Qed.

Lemma image_message_dispatch_witness :
  exists analysis tr_a media_url,
    analyze_image sample_config (list_byte_of_string "JPEG") friendly_world
      (snd (download_whatsapp_media (rt:=sample_runtime) sample_config (JStr "MEDIA1")
              friendly_world image_prelude)
       ++ [EvLog INFO "✅ Downloaded image: {len(image_bytes)} bytes"])
    = (Ok analysis, tr_a) /\
    fst (serve (handle_webhook (rt:=sample_runtime) sample_config sample_image_request)
           friendly_world) = ok_reply /\
    filter is_get (requests (snd (serve (handle_webhook (rt:=sample_runtime) sample_config
                                           sample_image_request) friendly_world)))
    = [resolve_request (rt:=sample_runtime) sample_config (JStr "MEDIA1");
       fetch_request sample_config media_url] /\
    enters (snd (serve (handle_webhook (rt:=sample_runtime) sample_config
                          sample_image_request) friendly_world))
    = [CallDownload (JStr "MEDIA1");
       CallAnalyze (list_byte_of_string "JPEG");
       CallSend (JStr "15551234567")
         (JStr (caption_line "My cat" ++ analysis_heading ++ "A cat.")%string)].
Proof.
  destruct (image_message_dispatch sample_runtime sample_config sample_image_request
              friendly_world _ _ _ _ _ _
              eq_refl eq_refl eq_refl eq_refl eq_refl eq_refl)
    as (analysis & tr_a & media_url & Ha & Hreply & Hget & Henters & _).
  exists analysis, tr_a, media_url.
  split; [exact Ha|]. split; [exact Hreply|]. split; [exact Hget|].
  injection Ha as <- <-. exact Henters.
Defined.

(** C5 as stated fails when the platform rejects the media-resolution
    request: there is then no media-download request and no inference
    call, only the send of the apology. *)
Lemma image_message_not_always_analyzed :
  let tr := snd (serve (handle_webhook (rt:=sample_runtime) sample_config
                          sample_image_request) (status_world 404)) in
  first_message (payload_of (image_message "15551234567" "MEDIA1" "My cat"))
  = Some [("from", JStr "15551234567"); ("id", JStr "wamid.2"); ("type", JStr "image");
          ("image", JObj [("id", JStr "MEDIA1"); ("caption", JStr "My cat")])] /\
  filter is_get (requests tr)
  = [resolve_request (rt:=sample_runtime) sample_config (JStr "MEDIA1")] /\
  filter is_inference (enters tr) = [] /\
  filter is_send (enters tr)
  = [CallSend (JStr "15551234567")
       (JStr (image_apology (rt:=sample_runtime)
                (HTTPStatusError {| status_code := 404; text := "";
                                    json_of := None; content := [] |})))].
Proof.
  repeat split.
Qed.

(** *** Failures while a message is processed *)

Lemma apologize_after (cfg : config) (from_number : json) (apology : string)
    (w : world) (tr : trace) :
  apologize cfg from_number apology w tr
  = (Ok tt, after_apology cfg from_number apology w tr).
Proof.
  unfold apologize, after_apology. run.
  destruct (send_whatsapp_message cfg from_number (JStr apology) w tr) as [[j|e] tr'];
    reflexivity.
Qed.

(** An attempted apology is exactly one more send, to the sender, of the
    apology. *)
Lemma after_apology_enters (cfg : config) (from_number : json) (apology : string)
    (w : world) (tr : trace) :
  enters (after_apology cfg from_number apology w tr)
  = enters tr ++ [CallSend from_number (JStr apology)].
Proof.
  destruct (apologize_trace cfg from_number apology w tr) as (tr' & Hp & He & _).
  rewrite apologize_after in Hp. injection Hp as <-. exact He.
Qed.

(** C6, as amended.  For a request that carries a message with a sender,
    the handler always completes with [{"status": "ok"}], and:
    - text: if sending the answer raises, the error is logged and the
      apology is attempted;
    - image: if the media fetch raises, if the analysis cannot be sliced,
      or if sending the reply raises anything but an HTTP status error,
      the error is logged and the apology is attempted;
    - image: if sending the reply raises an HTTP status error, the error
      is logged (with a tip when the response mentions 131030) and no
      apology is attempted;
    - other kinds: if sending the notice raises, the error is logged by
      the handler's outer [except] and no apology is attempted.
    An attempted apology that fails is logged and nothing more
    ([after_apology]). *)
Theorem dispatch_failure_policy :
  forall (rt : PyRuntime) (cfg : config) (request : Request) (w : world)
         (message : list (string * json)) (from_number : json),
    carries request message from_number ->
    let final := snd (serve (handle_webhook cfg request) w) in
    fst (serve (handle_webhook cfg request) w) = ok_reply /\
    (forall apology tr,
        enters (after_apology cfg from_number apology w tr)
        = enters tr ++ [CallSend from_number (JStr apology)]) /\
    (forall t question answer tr_a e tr_s,
        has_kind message "text" ->
        lookup "text" message = Some t ->
        obj_get "body" t = Some question ->
        answer_question cfg question w text_prelude = (Ok answer, tr_a) ->
        send_whatsapp_message cfg from_number answer w tr_a = (Raise e, tr_s) ->
        final = after_apology cfg from_number text_apology w
                  (tr_s ++ [EvLog ERROR "❌ Error answering question: {e}"])) /\
    (forall image,
        has_kind message "image" ->
        lookup "image" message = Some (JObj image) ->
        (forall e tr_d,
            download_whatsapp_media cfg (media_id_of image) w image_prelude = (Raise e, tr_d) ->
            final = after_apology cfg from_number (image_apology e) w
                      (tr_d ++ [EvLog ERROR "❌ Error processing image: {str(e)}"])) /\
        (forall image_bytes tr_d analysis tr_a,
            download_whatsapp_media cfg (media_id_of image) w image_prelude
            = (Ok image_bytes, tr_d) ->
            analyze_image cfg image_bytes w
              (tr_d ++ [EvLog INFO "✅ Downloaded image: {len(image_bytes)} bytes"])
            = (Ok analysis, tr_a) ->
            (forall e,
                py_slice100 analysis = Raise e ->
                final = after_apology cfg from_number (image_apology e) w
                          (tr_a ++ [EvLog ERROR "❌ Error processing image: {str(e)}"])) /\
            (forall sliced e tr_s,
                py_slice100 analysis = Ok sliced ->
                send_whatsapp_message cfg from_number
                  (JStr (image_reply (caption_of image) analysis)) w
                  (tr_a ++ [EvLog INFO "🤖 Analysis complete: {analysis[:100]}..."])
                = (Raise e, tr_s) ->
                match e with
                | HTTPStatusError r =>
                    final = tr_s ++ [EvLog ERROR "❌ Failed to send reply: {e}"] ++
                            (if contains "131030" (text r)
                             then [EvLog ERROR "💡 TIP: Add this phone number to your allowed list in Meta Dashboard!"]
                             else [])
                | _ =>
                    final = after_apology cfg from_number (image_apology e) w
                              (tr_s ++ [EvLog ERROR "❌ Error processing image: {str(e)}"])
                end))) /\
    (forall e tr_s,
        other_kind message ->
        send_whatsapp_message cfg from_number (JStr unsupported_message) w unsupported_prelude
        = (Raise e, tr_s) ->
        final = tr_s ++ [EvLog ERROR "❌ Unexpected error: {str(e)}"]).
Proof.
  intros rt cfg request w message from_number (body & Hb & Hm & Hf). cbv zeta.
  destruct (handle_webhook_message cfg request body message from_number w Hb Hm Hf)
    as [Hreply Htrace].
  split; [exact Hreply|]. split; [intros; apply after_apology_enters|].
  unfold get_or in Htrace. split; [|split].
  - intros t question answer tr_a e tr_s Hk Ht Hq Ha Hs.
    rewrite Hk in Htrace. cbn [is_str String.eqb Ascii.eqb Bool.eqb] in Htrace.
    rewrite (handle_text_run cfg message from_number t question w prelude Ht Hq) in Htrace.
    fold text_prelude in Htrace. rewrite Ha, Hs, apologize_after in Htrace. exact Htrace.
  - intros image Hk Hi.
    rewrite Hk in Htrace. cbn [is_str String.eqb Ascii.eqb Bool.eqb] in Htrace.
    rewrite (handle_image_run cfg message image from_number w prelude Hi) in Htrace.
    fold image_prelude in Htrace. cbv zeta in Htrace. split.
    + intros e tr_d Hd. rewrite Hd, apologize_after in Htrace. exact Htrace.
    + intros image_bytes tr_d analysis tr_a Hd Ha. rewrite Hd, Ha in Htrace. split.
      * intros e Hsl. rewrite Hsl, apologize_after in Htrace. exact Htrace.
      * intros sliced e tr_s Hsl Hs. rewrite Hsl, Hs in Htrace.
        destruct e; rewrite ?apologize_after in Htrace; exact Htrace.
  - intros e tr_s [Hi Ht] Hs. unfold get_or in Hi, Ht.
    rewrite Hi, Ht, handle_unsupported_run in Htrace.
    fold unsupported_prelude in Htrace. rewrite Hs in Htrace. rewrite Htrace.
    destruct (send_whatsapp_message_raises cfg _ _ w _ _ e Hs)
      as [[msg ->]|[(r & -> & _)| ->]]; reflexivity.
Qed.

Lemma dispatch_failure_policy_witness :
  carries sample_text_request
    [("from", JStr "15551234567"); ("id", JStr "wamid.1"); ("type", JStr "text");
     ("text", JObj [("body", JStr "Hi")])] (JStr "15551234567") /\
  fst (serve (handle_webhook (rt:=sample_runtime) sample_config sample_text_request)
         send_fails_world) = ok_reply /\
  logs (snd (serve (handle_webhook (rt:=sample_runtime) sample_config sample_text_request)
               send_fails_world))
  = [(INFO, "📩 Raw webhook payload: {body}");
     (INFO, "📋 Webhook value keys: {value.keys()}");
     (INFO, "📨 Message type: {msg_type} from {from_number}");
     (INFO, "💬 Text from {from_number}: {text}");
     (ERROR, "❌ WhatsApp API error: {resp.status_code} - {resp.text}");
     (ERROR, "❌ Error answering question: {e}");
     (ERROR, "❌ WhatsApp API error: {resp.status_code} - {resp.text}");
     (ERROR, "❌ Could not send error message to user")].
Proof.
  assert (Hc : carries sample_text_request
                 [("from", JStr "15551234567"); ("id", JStr "wamid.1"); ("type", JStr "text");
                  ("text", JObj [("body", JStr "Hi")])] (JStr "15551234567")).
  { eexists. split; [reflexivity|]. split; reflexivity. }
  split; [exact Hc|].
  destruct (dispatch_failure_policy sample_runtime sample_config sample_text_request
              send_fails_world _ _ Hc) as (Hreply & _ & Htext & _ & _).
  split; [exact Hreply|].
  rewrite (Htext _ _ _ _ _ _ eq_refl eq_refl eq_refl eq_refl eq_refl).
  reflexivity.
Defined.

(** C6 as stated fails in the image branch: when the platform rejects the
    send of the reply with an HTTP status, the inner [except
    httpx.HTTPStatusError] only logs, and no apology is attempted. *)
Lemma image_reply_rejected_without_apology :
  let tr := snd (serve (handle_webhook (rt:=sample_runtime) sample_config
                          sample_image_request) send_fails_world) in
  send_fails_world [] (send_request_of sample_config (JStr "15551234567") (JStr "x"))
  = Responds {| status_code := 500; text := "server error";
                json_of := None; content := [] |} /\
  filter is_send (enters tr)
  = [CallSend (JStr "15551234567")
       (JStr (caption_line "My cat" ++ analysis_heading ++ "A cat.")%string)] /\
  logs tr
  = [(INFO, "📩 Raw webhook payload: {body}");
     (INFO, "📋 Webhook value keys: {value.keys()}");
     (INFO, "📨 Message type: {msg_type} from {from_number}");
     (INFO, "🖼️ Image received from {from_number}, media_id={media_id}");
     (INFO, "✅ Downloaded image: {len(image_bytes)} bytes");
     (INFO, "🤖 Analysis complete: {analysis[:100]}...");
     (ERROR, "❌ WhatsApp API error: {resp.status_code} - {resp.text}");
     (ERROR, "❌ Failed to send reply: {e}")].
Proof.
  split; [reflexivity|]. split; reflexivity.
Qed.

(* ====================================================================== *)
(** ** The inference client *)

Lemma py_getitem_raises (v : json) (k : string) (e : exn) :
  py_getitem v k = Raise e -> is_lookup_error e.
Proof.
  destruct v; simpl; try (intros [= <-]; exact I).
  destruct (lookup k items); intros [= <-]; exact I.
Qed.

Lemma py_getitem0_raises (v : json) (e : exn) :
  py_getitem0 v = Raise e -> is_lookup_error e.
Proof.
  destruct v as [| | | |[|c s]|[|x xs]|]; simpl; intros [= <-]; exact I.
Qed.

(** Extracting the first candidate's text fails only with a lookup
    error, never with one of the HTTP client's exceptions. *)
Lemma candidate_text_raises (res : json) (e : exn) :
  candidate_text res = Raise e -> is_lookup_error e.
Proof.
  unfold candidate_text.
  destruct (py_getitem res "candidates") as [cs|e1] eqn:E1;
    [|intros [= <-]; exact (py_getitem_raises _ _ _ E1)].
  destruct (py_getitem0 cs) as [c|e2] eqn:E2;
    [|intros [= <-]; exact (py_getitem0_raises _ _ E2)].
  destruct (py_getitem c "content") as [ct|e3] eqn:E3;
    [|intros [= <-]; exact (py_getitem_raises _ _ _ E3)].
  destruct (py_getitem ct "parts") as [ps|e4] eqn:E4;
    [|intros [= <-]; exact (py_getitem_raises _ _ _ E4)].
  destruct (py_getitem0 ps) as [p|e5] eqn:E5;
    [|intros [= <-]; exact (py_getitem0_raises _ _ E5)].
  apply py_getitem_raises.
Qed.

(** C2, as amended.  [analyze_image] and [answer_question] never raise.
    Without an AI credential each returns its canned message and issues
    no request.  With one, each issues one request, and
    - a 429 response gives the canned busy message;
    - any other response that is not a success gives, for
      [analyze_image], the canned message that embeds the status code,
      and for [answer_question] a fixed message without it;
    - a transport error, an undecodable success, or a success without a
      first candidate's text gives the canned error message;
    - otherwise the first candidate's text is returned. *)
Theorem inference_degrades_without_raising :
  forall (cfg : config) (image_bytes : list Byte.byte) (question : json)
         (w : world) (tr : trace),
    let tr_i := tr ++ [EvEnter (CallAnalyze image_bytes)] in
    let tr_q := tr ++ [EvEnter (CallAnswer question)] in
    let analysis := fst (analyze_image cfg image_bytes w tr) in
    let answer := fst (answer_question cfg question w tr) in
    (exists a, analysis = Ok a) /\
    (exists a, answer = Ok a) /\
    (opt_truthy (GEMINI_API_KEY cfg) = false ->
     analyze_image cfg image_bytes w tr = (Ok (JStr analyze_unconfigured), tr_i) /\
     answer_question cfg question w tr = (Ok (JStr answer_unconfigured), tr_q)) /\
    (opt_truthy (GEMINI_API_KEY cfg) = true ->
     (forall r,
         w tr_i (vision_request cfg image_bytes) = Responds r ->
         (status_code r = 429 -> analysis = Ok (JStr analyze_busy)) /\
         (status_code r <> 429 -> is_success (status_code r) = false ->
          analysis = Ok (JStr (analyze_unavailable (status_code r)))) /\
         (is_success (status_code r) = true ->
          analysis = match json_of r with
                     | Some res =>
                         match candidate_text res with
                         | Ok t => Ok t
                         | Raise _ => Ok (JStr analyze_error)
                         end
                     | None => Ok (JStr analyze_error)
                     end)) /\
     (forall msg,
         w tr_i (vision_request cfg image_bytes) = Fails msg ->
         analysis = Ok (JStr analyze_error)) /\
     (forall r,
         w tr_q (text_request cfg question) = Responds r ->
         (status_code r = 429 -> answer = Ok (JStr answer_busy)) /\
         (status_code r <> 429 -> is_success (status_code r) = false ->
          answer = Ok (JStr answer_http_error)) /\
         (is_success (status_code r) = true ->
          answer = match json_of r with
                   | Some res =>
                       match candidate_text res with
                       | Ok t => Ok t
                       | Raise _ => Ok (JStr answer_error)
                       end
                   | None => Ok (JStr answer_error)
                   end)) /\
     (forall msg,
         w tr_q (text_request cfg question) = Fails msg ->
         answer = Ok (JStr answer_error))).
Proof.
  intros cfg image_bytes question w tr. cbv zeta.
  split; [|split; [|split]].
  - destruct (analyze_image_trace cfg image_bytes w tr) as (a & tr' & -> & _). now exists a.
  - destruct (answer_question_trace cfg question w tr) as (a & tr' & -> & _). now exists a.
  - intros Hkey. unfold analyze_image, answer_question. run. rewrite Hkey. split; reflexivity.
  - intros Hkey.
    assert (Hsucc : forall r, is_success (status_code r) = true -> (status_code r =? 429) = false).
    { intros r H. unfold is_success in H. apply andb_prop in H. destruct H as [_ H].
      apply Z.leb_le in H. apply Z.eqb_neq. lia. }
    unfold analyze_image, answer_question, vision_request, text_request.
    run. rewrite Hkey. repeat split.
    + intros H429. rewrite H. run. rewrite H429. reflexivity.
    + intros Hn Hs. apply Z.eqb_neq in Hn. rewrite H. run. rewrite Hn, Hs. run.
      rewrite Hn. reflexivity.
    + intros Hs. rewrite H. run. rewrite (Hsucc r Hs), Hs. run.
      destruct (json_of r) as [res|]; [|reflexivity].
      destruct (candidate_text res) as [t|e] eqn:E; [reflexivity|].
      apply candidate_text_raises in E. destruct e; try contradiction; reflexivity.
    + intros msg H. rewrite H. reflexivity.
    + intros H429. rewrite H. run. rewrite H429. reflexivity.
    + intros Hn Hs. apply Z.eqb_neq in Hn. rewrite H. run. rewrite Hn, Hs. run.
      rewrite Hn. reflexivity.
    + intros Hs. rewrite H. run. rewrite (Hsucc r Hs), Hs. run.
      destruct (json_of r) as [res|]; [|reflexivity].
      destruct (candidate_text res) as [t|e] eqn:E; [reflexivity|].
      apply candidate_text_raises in E. destruct e; try contradiction; reflexivity.
    + intros msg H. rewrite H. reflexivity.
Qed.

Lemma inference_degrades_without_raising_witness :
  fst (analyze_image sample_config (list_byte_of_string "JPEG") (status_world 503) [])
  = Ok (JStr "✅ Image received! (Analysis temporarily unavailable: 503)") /\
  fst (answer_question sample_config (JStr "Hi") (status_world 429) [])
  = Ok (JStr "⏳ I'm a bit busy right now. Please try again in a moment!").
Proof.
  destruct (inference_degrades_without_raising sample_config (list_byte_of_string "JPEG")
              (JStr "Hi") (status_world 503) []) as (_ & _ & _ & H).
  destruct (H eq_refl) as (Hi & _ & _ & _).
  destruct (Hi _ eq_refl) as (_ & Hunavailable & _).
  split; [apply Hunavailable; [discriminate|reflexivity]|].
  destruct (inference_degrades_without_raising sample_config (list_byte_of_string "JPEG")
              (JStr "Hi") (status_world 429) []) as (_ & _ & _ & H').
  destruct (H' eq_refl) as (_ & _ & Hq & _).
  destruct (Hq _ eq_refl) as (Hbusy & _).
  apply Hbusy. reflexivity.
Defined.

(** C2 as stated fails for [answer_question]: on an HTTP error other than
    429 its message is a fixed string that does not embed the status
    code, which [analyze_image] does embed. *)
Lemma answer_question_error_omits_status :
  fst (answer_question sample_config (JStr "Hi") (status_world 500) [])
  = Ok (JStr "⚠️ Sorry, I encountered an error. Please try again later.") /\
  contains "500" "⚠️ Sorry, I encountered an error. Please try again later." = false /\
  fst (analyze_image sample_config (list_byte_of_string "JPEG") (status_world 500) [])
  = Ok (JStr "✅ Image received! (Analysis temporarily unavailable: 500)").
Proof.
  split; [reflexivity|]. split; reflexivity.
Qed.

(* ====================================================================== *)
(** ** The diagnostic routes *)

(** C9, as amended.  [GET /health] and [GET /debug] have no effect.  The
    reply of [/health] depends on the configuration only through the
    phone number ID and the presence of the AI key.  The reply of
    [/debug] depends on it only through the phone number ID, the presence
    of the AI key, the presence and the first 20 characters of the access
    token, and the verify token, which it returns in full. *)
Theorem diagnostics_disclosure :
  forall (cfg : config) (w : world),
    snd (serve (health_check cfg) w) = [] /\
    snd (serve (debug_config cfg) w) = [] /\
    (forall cfg',
        PHONE_NUMBER_ID cfg' = PHONE_NUMBER_ID cfg ->
        opt_truthy (GEMINI_API_KEY cfg') = opt_truthy (GEMINI_API_KEY cfg) ->
        fst (serve (health_check cfg') w) = fst (serve (health_check cfg) w)) /\
    (forall cfg',
        PHONE_NUMBER_ID cfg' = PHONE_NUMBER_ID cfg ->
        opt_truthy (GEMINI_API_KEY cfg') = opt_truthy (GEMINI_API_KEY cfg) ->
        opt_truthy (WHATSAPP_TOKEN cfg') = opt_truthy (WHATSAPP_TOKEN cfg) ->
        take_chars 20 (fmt_opt (WHATSAPP_TOKEN cfg'))
        = take_chars 20 (fmt_opt (WHATSAPP_TOKEN cfg)) ->
        VERIFY_TOKEN cfg' = VERIFY_TOKEN cfg ->
        fst (serve (debug_config cfg') w) = fst (serve (debug_config cfg) w)) /\
    lookup "verify_token" (reply_fields (fst (serve (debug_config cfg) w)))
    = Some (JStr (VERIFY_TOKEN cfg)).
Proof.
  intros cfg w. unfold serve, health_check, debug_config, ret. cbn [fst snd fastapi].
  split; [reflexivity|]. split; [reflexivity|]. split; [|split; [|reflexivity]].
  - intros cfg' -> ->. reflexivity.
  - intros cfg' -> -> -> -> ->. reflexivity.
Qed.

Lemma diagnostics_disclosure_witness :
  fst (serve (debug_config short_token_config) friendly_world)
  = fst (serve (debug_config
                  {| WHATSAPP_TOKEN := Some "EAAG-short";
                     PHONE_NUMBER_ID := Some "15550001111";
                     VERIFY_TOKEN := "mysecrettoken";
                     GEMINI_API_KEY := Some "another-key" |}) friendly_world)
  /\ fst (serve (health_check sample_config) friendly_world)
     = fst (serve (health_check short_token_config) friendly_world).
Proof.
  destruct (diagnostics_disclosure
              {| WHATSAPP_TOKEN := Some "EAAG-short";
                 PHONE_NUMBER_ID := Some "15550001111";
                 VERIFY_TOKEN := "mysecrettoken";
                 GEMINI_API_KEY := Some "another-key" |} friendly_world)
    as (_ & _ & _ & Hdebug & _).
  split; [apply Hdebug; reflexivity|].
  destruct (diagnostics_disclosure short_token_config friendly_world)
    as (_ & _ & Hhealth & _).
  apply Hhealth; reflexivity.
Defined.

(** C9 as stated fails for [/debug]: its ["verify_token"] field is the
    verify token in full, and the preview of an access token of fewer
    than 20 characters is the whole token. *)
Lemma debug_config_exposes_secrets :
  let reply := fst (serve (debug_config short_token_config) friendly_world) in
  fst (validate_env_vars short_token_config friendly_world []) = Ok tt /\
  lookup "verify_token" (reply_fields reply) = Some (JStr "mysecrettoken") /\
  exposes (VERIFY_TOKEN short_token_config) reply = true /\
  lookup "whatsapp_token_preview" (reply_fields reply) = Some (JStr "EAAG-short...") /\
  exposes "EAAG-short" reply = true.
Proof.
  repeat split.
Qed.

(* ====================================================================== *)
(** ** Beyond the claims: startup, the handshake's parameters, the preview *)

(** X1.  Startup validation succeeds exactly when the access token and
    the phone number ID are both set and not empty; otherwise it raises a
    [ValueError] that lists the missing names in the order they are
    checked.  The AI key never decides the outcome, and validation issues
    no request. *)
Theorem validate_env_vars_outcome :
  forall (cfg : config) (w : world) (tr : trace),
    let run := validate_env_vars cfg w tr in
    (fst run = Ok tt <->
     opt_truthy (WHATSAPP_TOKEN cfg) = true /\ opt_truthy (PHONE_NUMBER_ID cfg) = true) /\
    (fst run = Ok tt \/
     fst run = Raise (ValueError ("Missing environment variables: "
                                  ++ String.concat ", " (missing_vars cfg))%string)) /\
    (forall cfg',
        WHATSAPP_TOKEN cfg' = WHATSAPP_TOKEN cfg ->
        PHONE_NUMBER_ID cfg' = PHONE_NUMBER_ID cfg ->
        fst (validate_env_vars cfg' w tr) = fst run) /\
    enters (snd run) = enters tr /\
    requests (snd run) = requests tr.
Proof.
  intros cfg w tr. cbv zeta.
  assert (Hind : forall cfg',
             WHATSAPP_TOKEN cfg' = WHATSAPP_TOKEN cfg ->
             PHONE_NUMBER_ID cfg' = PHONE_NUMBER_ID cfg ->
             fst (validate_env_vars cfg' w tr) = fst (validate_env_vars cfg w tr)).
  { intros cfg' Ht Hp. unfold validate_env_vars. rewrite Ht, Hp.
    destruct (opt_truthy (WHATSAPP_TOKEN cfg)), (opt_truthy (PHONE_NUMBER_ID cfg)),
             (opt_truthy (GEMINI_API_KEY cfg)), (opt_truthy (GEMINI_API_KEY cfg'));
      reflexivity. }
  unfold validate_env_vars, missing_vars in *.
  destruct (opt_truthy (WHATSAPP_TOKEN cfg)), (opt_truthy (PHONE_NUMBER_ID cfg)),
           (opt_truthy (GEMINI_API_KEY cfg));
    (split; [split; [intros H; try discriminate H; now split
                    |intros [H1 H2]; try discriminate H1; try discriminate H2; reflexivity]|]);
    (split; [first [left; reflexivity | right; reflexivity]|]);
    (split; [exact Hind|]);
    rewrite ?enters_app, ?requests_app; cbn; rewrite ?enters_app, ?requests_app; cbn;
    rewrite ?app_nil_r; split; reflexivity.
Qed.

(** *** Repeated query parameters *)

Lemma params_get_app (k : string) (qs1 qs2 : list (string * string)) :
  params_get k (qs1 ++ qs2) =
  match params_get k qs2 with
  | Some v => Some v
  | None => params_get k qs1
  end.
Proof.
  induction qs1 as [|[k' v'] qs1 IH]; simpl.
  - now destruct (params_get k qs2).
  - rewrite IH. destruct (params_get k qs2); [reflexivity|].
    now destruct (params_get k qs1).
Qed.

(** X2.  Of a repeated query parameter the verifier uses the last
    occurrence: whatever parameters come first, a request whose later
    parameters carry [hub.mode], [hub.verify_token] and [hub.challenge]
    is answered as if it carried only those. *)
Theorem verify_webhook_last_parameter_wins :
  forall (cfg : config) (earlier later : list (string * string))
         (body : option json) (w : world) (mode token challenge : string),
    params_get "hub.mode" later = Some mode ->
    params_get "hub.verify_token" later = Some token ->
    params_get "hub.challenge" later = Some challenge ->
    fst (serve (verify_webhook cfg (mkReq (earlier ++ later) body)) w)
    = fst (serve (verify_webhook cfg (mkReq later body)) w).
Proof.
  intros cfg earlier later body w mode token challenge Hm Ht Hc.
  unfold serve, verify_webhook. run. cbn [query_params].
  rewrite !params_get_app, Hm, Ht, Hc. reflexivity.
Qed.

Lemma verify_webhook_last_parameter_wins_witness :
  fst (serve (verify_webhook sample_config
                (mkReq ([("hub.verify_token", "wrong"); ("hub.mode", "unsubscribe")] ++
                        [("hub.mode", "subscribe"); ("hub.verify_token", "mysecrettoken");
                         ("hub.challenge", "42")]) None)) friendly_world)
  = mkReply 200 (BodyText "42").
Proof.
  rewrite (verify_webhook_last_parameter_wins sample_config
             [("hub.verify_token", "wrong"); ("hub.mode", "unsubscribe")]
             [("hub.mode", "subscribe"); ("hub.verify_token", "mysecrettoken");
              ("hub.challenge", "42")]
             None friendly_world "subscribe" "mysecrettoken" "42" eq_refl eq_refl eq_refl).
  reflexivity.
Defined.

(** X3.  When the environment sets no [VERIFY_TOKEN], the verifier
    accepts the built-in default: a subscribe request whose token is
    ["mysecrettoken"] gets its challenge back, whatever else the
    environment holds. *)
Theorem verify_webhook_default_token :
  forall (getenv : string -> option string) (request : Request) (w : world)
         (challenge : string),
    getenv "VERIFY_TOKEN" = None ->
    params_get "hub.mode" (query_params request) = Some "subscribe" ->
    params_get "hub.verify_token" (query_params request) = Some "mysecrettoken" ->
    params_get "hub.challenge" (query_params request) = Some challenge ->
    fst (serve (verify_webhook (load_config getenv) request) w)
    = mkReply 200 (BodyText challenge).
Proof.
  intros getenv request w challenge Henv Hm Ht Hc.
  rewrite (verify_webhook_accept (load_config getenv) request w Hm).
  - now rewrite Hc.
  - rewrite Ht. unfold load_config. cbn [VERIFY_TOKEN]. now rewrite Henv.
Qed.

Lemma verify_webhook_default_token_witness :
  fst (serve (verify_webhook
                (load_config (fun name => if String.eqb name "WHATSAPP_TOKEN"
                                          then Some "EAAG-token"
                                          else if String.eqb name "PHONE_NUMBER_ID"
                                          then Some "1234567890" else None))
                (mkReq [("hub.mode", "subscribe"); ("hub.verify_token", "mysecrettoken");
                        ("hub.challenge", "1158201444")] None)) friendly_world)
  = mkReply 200 (BodyText "1158201444").
Proof.
  apply verify_webhook_default_token; reflexivity.
Defined.

(** *** The token preview *)

Lemma take_chars_prefix (n : nat) (s : string) :
  String.prefix (take_chars n s) s = true.
Proof.
  revert n. induction s as [|c s IH]; intros n; simpl; [reflexivity|].
  destruct (is_continuation c); simpl.
  - destruct (ascii_dec c c); [apply IH|contradiction].
  - destruct n; simpl; [reflexivity|].
    destruct (ascii_dec c c); [apply IH|contradiction].
Qed.

Lemma take_chars_count (n : nat) (s : string) :
  (char_count (take_chars n s) <= n)%nat.
Proof.
  revert n. induction s as [|c s IH]; intros n; simpl; [lia|].
  destruct (is_continuation c) eqn:E; simpl; rewrite ?E; [apply IH|].
  destruct n; simpl; rewrite ?E; [lia|]. specialize (IH n). lia.
Qed.

Lemma take_chars_all (n : nat) (s : string) :
  (char_count s <= n)%nat -> take_chars n s = s.
Proof.
  revert n. induction s as [|c s IH]; intros n H; simpl in *; [reflexivity|].
  destruct (is_continuation c); [now rewrite IH|].
  destruct n; [lia|]. rewrite IH; [reflexivity|lia].
Qed.

Lemma take_chars_zero_tail (s : string) :
  take_chars 0 s = s -> char_count s = O.
Proof.
  induction s as [|c s IH]; simpl; [reflexivity|].
  destruct (is_continuation c); [|discriminate].
  intros [= H]. now apply IH.
Qed.

Lemma take_chars_fixed (n : nat) (s : string) :
  starts_a_character s -> take_chars n s = s -> (char_count s <= n)%nat.
Proof.
  destruct s as [|c s]; simpl; [lia|].
  intros -> H. destruct n; [discriminate|]. injection H as H.
  clear c. revert n H. induction s as [|c s IH]; intros n H; simpl in *; [lia|].
  destruct (is_continuation c).
  - injection H as H. apply IH. exact H.
  - destruct n; [discriminate|]. injection H as H. specialize (IH n H). lia.
Qed.

(** X4.  The token preview of [/debug] is absent when no access token is
    set; otherwise it is a prefix of the token, of at most 20 characters,
    followed by ["..."], and that prefix is the whole token exactly when
    the token has at most 20 characters. *)
Theorem debug_config_preview :
  forall (cfg : config) (w : world),
    let preview :=
      lookup "whatsapp_token_preview" (reply_fields (fst (serve (debug_config cfg) w))) in
    (opt_truthy (WHATSAPP_TOKEN cfg) = false -> preview = Some JNull) /\
    (forall token,
        WHATSAPP_TOKEN cfg = Some token ->
        token <> "" ->
        exists shown,
          preview = Some (JStr (shown ++ "...")%string) /\
          String.prefix shown token = true /\
          (char_count shown <= 20)%nat /\
          (starts_a_character token ->
           (shown = token <-> (char_count token <= 20)%nat))).
Proof.
  intros cfg w. unfold serve, debug_config, ret. cbn [fst fastapi reply_fields reply_body_of].
  cbn [lookup String.eqb Ascii.eqb Bool.eqb]. split.
  - intros ->. reflexivity.
  - intros token Ht Hne. rewrite Ht. cbn [opt_truthy fmt_opt].
    destruct (String.eqb_spec token "") as [->|_]; [contradiction|]. cbn [negb].
    exists (take_chars 20 token). split; [reflexivity|].
    split; [apply take_chars_prefix|]. split; [apply take_chars_count|].
    intros Hs. split; [apply take_chars_fixed; exact Hs|apply take_chars_all].
Qed.

Lemma debug_config_preview_witness :
  exists shown,
    lookup "whatsapp_token_preview"
      (reply_fields (fst (serve (debug_config sample_config) friendly_world)))
    = Some (JStr (shown ++ "...")%string) /\
    String.prefix shown "EAAG-sample-access-token-0123456789" = true /\
    (char_count shown <= 20)%nat /\
    shown <> "EAAG-sample-access-token-0123456789".
Proof.
  destruct (proj2 (debug_config_preview sample_config friendly_world)
              "EAAG-sample-access-token-0123456789" eq_refl)
    as (shown & Hp & Hpre & Hn & Hiff).
  - discriminate.
  - exists shown. repeat (split; [assumption|]).
    intros E. apply (proj1 (Hiff eq_refl)) in E. vm_compute in E. lia.
Defined.

(* ====================================================================== *)
(** ** Beyond the claims: the helpers' outcomes *)

(** X5.  [send_whatsapp_message] returns exactly when the platform
    answers its one request with a 2xx status and a body that decodes,
    and then returns that decoded body.  A success other than 200 (a 201,
    say) is still logged as an API error before it is returned. *)
Theorem send_whatsapp_message_succeeds_iff :
  forall (cfg : config) (to body : json) (w : world) (tr : trace) (j : json),
    let tr1 := tr ++ [EvEnter (CallSend to body)] in
    let rq := send_request_of cfg to body in
    (fst (send_whatsapp_message cfg to body w tr) = Ok j <->
     exists r, w tr1 rq = Responds r /\
               is_success (status_code r) = true /\
               json_of r = Some j) /\
    (forall r,
        w tr1 rq = Responds r ->
        is_success (status_code r) = true ->
        status_code r <> 200 ->
        json_of r = Some j ->
        send_whatsapp_message cfg to body w tr
        = (Ok j, tr1 ++ [EvHttp rq;
                         EvLog ERROR "❌ WhatsApp API error: {resp.status_code} - {resp.text}";
                         EvLog INFO "✅ Message sent to {to}: {resp.json()}"])).
Proof.
  intros cfg to body w tr j. cbv zeta.
  assert (H200 : is_success 200 = true) by reflexivity.
  unfold send_whatsapp_message, send_request_of. run. split; [split|].
  - destruct (w _ _) as [r|msg]; run; [|discriminate].
    destruct (status_code r =? 200) eqn:E; run.
    + apply Z.eqb_eq in E.
      destruct (json_of r) as [j'|] eqn:Ej; run; [|discriminate].
      intros [= ->]. exists r. rewrite E. now repeat split.
    + destruct (is_success (status_code r)) eqn:Es; run; [|discriminate].
      destruct (json_of r) as [j'|] eqn:Ej; run; [|discriminate].
      intros [= ->]. exists r. now repeat split.
  - intros (r & Hw & Hs & Hj). rewrite Hw. run.
    destruct (status_code r =? 200); run; rewrite ?Hs; run; rewrite Hj; reflexivity.
  - intros r Hw Hs Hn Hj. apply Z.eqb_neq in Hn. rewrite Hw. run.
    rewrite Hn, Hs. run. rewrite Hj. run. rewrite <- !app_assoc. reflexivity.
Qed.

Lemma send_whatsapp_message_succeeds_iff_witness :
  send_whatsapp_message sample_config (JStr "15551234567") (JStr "hello")
    (status_world 201) []
  = (Raise JSONDecodeError,
     [EvEnter (CallSend (JStr "15551234567") (JStr "hello"));
      EvHttp (send_request_of sample_config (JStr "15551234567") (JStr "hello"));
      EvLog ERROR "❌ WhatsApp API error: {resp.status_code} - {resp.text}"])
  /\ fst (send_whatsapp_message sample_config (JStr "15551234567") (JStr "hello")
            friendly_world [])
     = Ok (JObj [("messages", JArr [])]).
Proof.
  split; [reflexivity|].
  apply (proj1 (send_whatsapp_message_succeeds_iff sample_config (JStr "15551234567")
                  (JStr "hello") friendly_world [] (JObj [("messages", JArr [])]))).
  eexists. split; [reflexivity|]. split; reflexivity.
Defined.

(** X6.  When [download_whatsapp_media] returns bytes, the platform
    answered the resolution request with a success whose body is an
    object with a text ["url"], the second request went to exactly that
    URL with the same bearer header, it was answered with a success, and
    the bytes are that response's content; the run consists of the entry
    and these two requests. *)
Theorem download_whatsapp_media_success :
  forall (rt : PyRuntime) (cfg : config) (media_id : json) (w : world)
         (tr tr' : trace) (image_bytes : list Byte.byte),
    download_whatsapp_media cfg media_id w tr = (Ok image_bytes, tr') ->
    let tr1 := tr ++ [EvEnter (CallDownload media_id)] in
    let rq1 := resolve_request cfg media_id in
    exists r1 r2 media_url,
      w tr1 rq1 = Responds r1 /\
      resolved_url (Responds r1) = Some media_url /\
      w (tr1 ++ [EvHttp rq1]) (fetch_request cfg media_url) = Responds r2 /\
      is_success (status_code r2) = true /\
      image_bytes = content r2 /\
      headers (fetch_request cfg media_url) = headers rq1 /\
      tr' = tr1 ++ [EvHttp rq1; EvHttp (fetch_request cfg media_url)].
Proof.
  intros rt cfg media_id w tr tr' image_bytes. cbv zeta.
  unfold download_whatsapp_media, resolve_request, fetch_request, media_headers, resolved_url.
  run.
  destruct (w _ _) as [r1|msg] eqn:E1; run; [|discriminate].
  destruct (is_success (status_code r1)) eqn:S1; run; [|discriminate].
  destruct (json_of r1) as [[| | | | | |meta]|] eqn:J1; run; cbn [py_get]; try discriminate.
  destruct (lookup "url" meta) as [[| | | |u| |]|] eqn:U; run; try discriminate.
  match goal with
  | |- context [match w ?t ?q with _ => _ end] => destruct (w t q) as [r2|msg] eqn:E2
  end; run; [|discriminate].
  destruct (is_success (status_code r2)) eqn:S2; run; [|discriminate].
  intros [= <- <-]. exists r1, r2, u.
  split; [reflexivity|]. split; [now rewrite S1, J1, U|].
  split; [exact E2|]. split; [exact S2|]. split; [reflexivity|]. split; [reflexivity|].
  now rewrite <- !app_assoc.
Qed.

Lemma download_whatsapp_media_success_witness :
  exists r1 r2 media_url,
    friendly_world [EvEnter (CallDownload (JStr "MEDIA1"))]
      (resolve_request (rt:=sample_runtime) sample_config (JStr "MEDIA1")) = Responds r1 /\
    resolved_url (Responds r1) = Some media_url /\
    friendly_world
      [EvEnter (CallDownload (JStr "MEDIA1"));
       EvHttp (resolve_request (rt:=sample_runtime) sample_config (JStr "MEDIA1"))]
      (fetch_request sample_config media_url) = Responds r2 /\
    is_success (status_code r2) = true /\
    list_byte_of_string "JPEG" = content r2 /\
    media_url = "https://cdn.example/m".
Proof.
  destruct (download_whatsapp_media_success sample_runtime sample_config (JStr "MEDIA1")
              friendly_world [] _ _ eq_refl)
    as (r1 & r2 & u & H1 & Hu & H2 & Hs & Hb & _ & _).
  exists r1, r2, u. repeat (split; [assumption|]).
  cbn in H1. injection H1 as <-. cbn in Hu. now injection Hu as <-.
Defined.

(** X7.  When the resolution request does not yield a download URL (the
    client fails, the status is not a success, the body does not decode
    to an object, or its ["url"] is missing or not text),
    [download_whatsapp_media] raises after that one request: no download
    request is made. *)
Theorem download_whatsapp_media_unresolved :
  forall (rt : PyRuntime) (cfg : config) (media_id : json) (w : world) (tr : trace),
    let tr1 := tr ++ [EvEnter (CallDownload media_id)] in
    let rq1 := resolve_request cfg media_id in
    resolved_url (w tr1 rq1) = None ->
    exists e,
      download_whatsapp_media cfg media_id w tr = (Raise e, tr1 ++ [EvHttp rq1]) /\
      match w tr1 rq1 with
      | Fails msg => e = TransportError msg
      | Responds r1 =>
          if is_success (status_code r1) then ~ (exists r, e = HTTPStatusError r)
          else e = HTTPStatusError r1
      end.
Proof.
  intros rt cfg media_id w tr. cbv zeta.
  unfold download_whatsapp_media, resolve_request, media_headers, resolved_url. run.
  destruct (w _ _) as [r1|msg] eqn:E1; run;
    [|intros _; eexists; split; reflexivity].
  destruct (is_success (status_code r1)) eqn:S1; run;
    [|intros _; eexists; split; reflexivity].
  destruct (json_of r1) as [[| | | | | |meta]|] eqn:J1; run; cbn [py_get];
    try (intros _; eexists; split; [reflexivity|intros [r [=]]]).
  destruct (lookup "url" meta) as [[| | | |u| |]|] eqn:U; run;
    try discriminate;
    intros _; eexists; (split; [reflexivity|intros [r [=]]]).
Qed.

Lemma download_whatsapp_media_unresolved_witness :
  exists e,
    download_whatsapp_media (rt:=sample_runtime) sample_config (JStr "MEDIA1")
      (status_world 404) []
    = (Raise e,
       [EvEnter (CallDownload (JStr "MEDIA1"));
        EvHttp (resolve_request (rt:=sample_runtime) sample_config (JStr "MEDIA1"))]) /\
    e = HTTPStatusError {| status_code := 404; text := ""; json_of := None; content := [] |}.
Proof.
  destruct (download_whatsapp_media_unresolved sample_runtime sample_config (JStr "MEDIA1")
              (status_world 404) [] eq_refl) as (e & Hrun & He).
  exists e. split; [exact Hrun|exact He].
Defined.

(** X8.  [send_whatsapp_typing] posts the same request as sending the
    text ["⏳ Analyzing your image, please wait..."] would, and returns
    whatever status the platform answers with: for a response that is not
    a success it returns normally where [send_whatsapp_message] raises
    the HTTP status error.  It raises only when the client itself
    fails. *)
Theorem send_whatsapp_typing_ignores_status :
  forall (cfg : config) (to : json) (w : world) (tr : trace),
    let rq := send_request_of cfg to (JStr typing_text) in
    requests (snd (send_whatsapp_typing cfg to w tr)) = requests tr ++ [rq] /\
    (forall r, w tr rq = Responds r ->
               send_whatsapp_typing cfg to w tr = (Ok tt, tr ++ [EvHttp rq])) /\
    (forall msg, w tr rq = Fails msg ->
                 fst (send_whatsapp_typing cfg to w tr) = Raise (TransportError msg)) /\
    (forall r, w (tr ++ [EvEnter (CallSend to (JStr typing_text))]) rq = Responds r ->
               is_success (status_code r) = false ->
               fst (send_whatsapp_message cfg to (JStr typing_text) w tr)
               = Raise (HTTPStatusError r)).
Proof.
  intros cfg to w tr. cbv zeta.
  unfold send_whatsapp_typing, send_whatsapp_message, send_request_of. run.
  split; [|split; [|split]].
  - destruct (w _ _); run; rewrite requests_app; reflexivity.
  - intros r ->. reflexivity.
  - intros msg ->. reflexivity.
  - intros r -> Hs. run.
    destruct (status_code r =? 200) eqn:E; run.
    + apply Z.eqb_eq in E. rewrite E in Hs. discriminate Hs.
    + rewrite Hs. reflexivity.
Qed.

Lemma send_whatsapp_typing_ignores_status_witness :
  send_whatsapp_typing sample_config (JStr "15551234567") (status_world 401) []
  = (Ok tt, [EvHttp (send_request_of sample_config (JStr "15551234567") (JStr typing_text))])
  /\ fst (send_whatsapp_message sample_config (JStr "15551234567") (JStr typing_text)
            (status_world 401) [])
     = Raise (HTTPStatusError {| status_code := 401; text := "";
                                 json_of := None; content := [] |}).
Proof.
  destruct (send_whatsapp_typing_ignores_status sample_config (JStr "15551234567")
              (status_world 401) []) as (_ & Hok & _ & Hraise).
  split; [apply (Hok _ eq_refl)|apply (Hraise _ eq_refl eq_refl)].
Defined.

(* ====================================================================== *)
(** ** Beyond the claims: what the dispatcher does with any body *)

Lemma py_getitem_ok (v : json) (k : string) (x : json) :
  py_getitem v k = Ok x -> exists items, v = JObj items /\ lookup k items = Some x.
Proof.
  destruct v; try discriminate. simpl.
  destruct (lookup k items) as [y|] eqn:E; [|discriminate].
  intros [= <-]. now exists items.
Qed.

Lemma py_getitem0_ok_obj (v : json) (items : list (string * json)) :
  py_getitem0 v = Ok (JObj items) -> arr_head v = Some (JObj items).
Proof.
  destruct v as [| | | |[|c s]|[|x xs]|]; try discriminate; simpl.
  intros [= ->]. reflexivity.
Qed.

Lemma py_get_ok (v : json) (k : string) (d x : json) :
  py_get v k d = Ok x -> exists items, v = JObj items /\ x = get_or k items d.
Proof.
  destruct v; try discriminate. simpl. intros [= <-]. now exists items.
Qed.

(** The subscripts by which the handler reaches the sender succeed only
    on a payload whose first message is an object that carries
    ["from"]. *)
Lemma first_message_of_walk (body e e0 c c0 v ms m f : json) :
  py_getitem body "entry" = Ok e ->
  py_getitem0 e = Ok e0 ->
  py_getitem e0 "changes" = Ok c ->
  py_getitem0 c = Ok c0 ->
  py_getitem c0 "value" = Ok v ->
  py_get v "messages" JNull = Ok ms ->
  py_getitem0 ms = Ok m ->
  py_getitem m "from" = Ok f ->
  exists message, first_message body = Some message /\ lookup "from" message = Some f.
Proof.
  intros H1 H2 H3 H4 H5 H6 H7 H8.
  apply py_getitem_ok in H1, H3, H5, H8.
  destruct H1 as (bi & -> & L1), H3 as (ei & -> & L3), H5 as (ci & -> & L5),
           H8 as (mi & -> & L8).
  apply py_getitem0_ok_obj in H2, H4, H7.
  apply py_get_ok in H6. destruct H6 as (vi & -> & ->).
  exists mi. split; [|exact L8].
  unfold first_message, payload_value, opt_bind, obj_get. rewrite L1, H2, L3, H4, L5.
  unfold get_or in H7. destruct (lookup "messages" vi) as [ms|]; [|discriminate H7].
  now rewrite H7.
Qed.

(** Unless the payload's first message is an object that carries
    ["from"], the [try] block invokes no helper and issues no request. *)
Lemma webhook_try_block_quiet
    {rt : PyRuntime} (cfg : config) (body : json) (w : world) (tr tr' : trace)
    (r : result (option json)) :
  webhook_try_block cfg body w tr = (r, tr') ->
  (exists message f, first_message body = Some message /\ lookup "from" message = Some f) \/
  (enters tr' = enters tr /\ requests tr' = requests tr).
Proof.
  unfold webhook_try_block. crunch; intros [= <- <-];
    try (right; rewrite ?enters_app, ?requests_app; cbn; rewrite ?app_nil_r;
         split; reflexivity);
    left;
    match goal with
    | H1 : py_getitem body "entry" = Ok ?e,
      H2 : py_getitem0 ?e = Ok ?e0,
      H3 : py_getitem ?e0 "changes" = Ok ?c,
      H4 : py_getitem0 ?c = Ok ?c0,
      H5 : py_getitem ?c0 "value" = Ok ?v,
      H6 : py_get ?v "messages" JNull = Ok ?ms,
      H7 : py_getitem0 ?ms = Ok ?m,
      H8 : py_getitem ?m "from" = Ok ?f |- _ =>
        destruct (first_message_of_walk _ _ _ _ _ _ _ _ _ H1 H2 H3 H4 H5 H6 H7 H8)
          as (message & Hm & Hf);
        exists message, f; split; assumption
    end.
Qed.

(** X9.  A body that decodes but whose first message is not an object
    carrying a sender - no entry, an empty list on the way, a status
    update, a message without ["from"] - costs nothing: the handler
    answers 200, invokes no helper and issues no request. *)
Theorem webhook_quiet_without_sender :
  forall (rt : PyRuntime) (cfg : config) (request : Request) (body : json) (w : world),
    request_json_body request = Some body ->
    (forall message f, first_message body = Some message ->
                       lookup "from" message <> Some f) ->
    reply_status (fst (serve (handle_webhook cfg request) w)) = 200 /\
    enters (snd (serve (handle_webhook cfg request) w)) = [] /\
    requests (snd (serve (handle_webhook cfg request) w)) = [].
Proof.
  intros rt cfg request body w Hb Hnone.
  rewrite (handle_webhook_run cfg request body w Hb).
  destruct (webhook_try_block cfg body w _) as [r tr] eqn:E.
  destruct (webhook_try_block_quiet cfg body w _ _ _ E)
    as [(message & f & Hm & Hf)|[He Hr]]; [now destruct (Hnone message f Hm)|].
  cbn in He, Hr.
  destruct r as [[d|]|e]; [| |destruct (outer_except_logs_silent e) as [Hle Hlr];
                               destruct e];
    cbn [fst snd reply_status ok_reply];
    rewrite ?enters_app, ?requests_app, ?He, ?Hr; repeat split.
Qed.

Lemma webhook_quiet_without_sender_witness :
  let request := post (JObj [("entry", JArr [])]) in
  reply_status (fst (serve (handle_webhook (rt:=sample_runtime) sample_config request)
                       friendly_world)) = 200 /\
  enters (snd (serve (handle_webhook (rt:=sample_runtime) sample_config request)
                friendly_world)) = [] /\
  requests (snd (serve (handle_webhook (rt:=sample_runtime) sample_config request)
                  friendly_world)) = [].
Proof.
  intros request.
  apply (webhook_quiet_without_sender sample_runtime sample_config request
           (JObj [("entry", JArr [])]) friendly_world eq_refl).
  intros message f Hm. discriminate Hm.
Defined.

(** X10.  Only the first message of the first change of the first entry
    is processed: two payloads with the same first message, sent by the
    same sender, give the same reply and the same run, whatever else they
    contain (further messages, entries, statuses). *)
Theorem handle_webhook_only_first_message :
  forall (rt : PyRuntime) (cfg : config) (request1 request2 : Request) (w : world)
         (message : list (string * json)) (from_number : json),
    carries request1 message from_number ->
    carries request2 message from_number ->
    serve (handle_webhook cfg request1) w = serve (handle_webhook cfg request2) w.
Proof.
  intros rt cfg request1 request2 w message from_number
         (b1 & Hb1 & Hm1 & Hf1) (b2 & Hb2 & Hm2 & Hf2).
  rewrite (handle_webhook_run cfg request1 b1 w Hb1),
          (handle_webhook_run cfg request2 b2 w Hb2).
  rewrite (webhook_try_block_message cfg b1 message from_number w _ Hm1 Hf1),
          (webhook_try_block_message cfg b2 message from_number w _ Hm2 Hf2).
  reflexivity.
Qed.

Lemma handle_webhook_only_first_message_witness :
  serve (handle_webhook (rt:=sample_runtime) sample_config
           (post (two_message_payload (text_message "15551234567" "Hi")
                                      (image_message "15557654321" "MEDIA9" ""))))
        friendly_world
  = serve (handle_webhook (rt:=sample_runtime) sample_config sample_text_request)
          friendly_world.
Proof.
  apply (handle_webhook_only_first_message sample_runtime sample_config
           (post (two_message_payload (text_message "15551234567" "Hi")
                                      (image_message "15557654321" "MEDIA9" "")))
           sample_text_request friendly_world
           [("from", JStr "15551234567"); ("id", JStr "wamid.1"); ("type", JStr "text");
            ("text", JObj [("body", JStr "Hi")])] (JStr "15551234567"));
    (eexists; split; [reflexivity|]; split; reflexivity).
Defined.

(** X11.  A ["messages"] value that is present but empty or otherwise
    false (an empty list, [null], [""], [0], [false], an empty object) is
    treated like an absent one: the reply is [{"status": "no messages"}]
    and nothing is invoked or requested. *)
Theorem webhook_falsy_messages :
  forall (rt : PyRuntime) (cfg : config) (request : Request) (body : json)
         (value : list (string * json)) (messages : json) (w : world),
    request_json_body request = Some body ->
    payload_value body = Some value ->
    lookup "messages" value = Some messages ->
    truthy messages = false ->
    serve (handle_webhook cfg request) w
    = (mkReply 200 (BodyJson (status_dict "no messages")),
       [EvLog INFO "📩 Raw webhook payload: {body}";
        EvLog INFO "📋 Webhook value keys: {value.keys()}";
        EvLog INFO "ℹ️ Webhook received but no messages (likely a status update)"]).
Proof.
  intros rt cfg request body value messages w Hb Hv Hm Ht.
  rewrite (handle_webhook_run cfg request body w Hb).
  unfold payload_value, opt_bind in Hv.
  destruct (obj_get "entry" body) as [entries|] eqn:E1; [|discriminate].
  destruct (arr_head entries) as [entry|] eqn:E2; [|discriminate].
  destruct (obj_get "changes" entry) as [cl|] eqn:E3; [|discriminate].
  destruct (arr_head cl) as [changes|] eqn:E4; [|discriminate].
  destruct (obj_get "value" changes) as [[]|] eqn:E5; try discriminate.
  injection Hv as ->.
  apply obj_get_getitem in E1, E3, E5. apply arr_head_getitem0 in E2, E4.
  destruct E1 as [G1 I1], E3 as [G3 _], E5 as [G5 _], E2 as [G2 _], E4 as [G4 _].
  unfold webhook_try_block. run.
  rewrite I1. run. rewrite G1, G2, G3, G4, G5. cbn [py_keys py_get].
  rewrite Hm, Ht. reflexivity.
Qed.

Lemma webhook_falsy_messages_witness :
  fst (serve (handle_webhook (rt:=sample_runtime) sample_config
                (post (JObj [("entry", JArr [JObj [("changes", JArr [JObj [("value",
                   JObj [("messages", JArr [])])]])]])]))) friendly_world)
  = mkReply 200 (BodyJson (status_dict "no messages")).
Proof.
  rewrite (webhook_falsy_messages sample_runtime sample_config
             (post (JObj [("entry", JArr [JObj [("changes", JArr [JObj [("value",
                JObj [("messages", JArr [])])]])]])]))
             (JObj [("entry", JArr [JObj [("changes", JArr [JObj [("value",
                JObj [("messages", JArr [])])]])]])])
             [("messages", JArr [])] (JArr []) friendly_world
             eq_refl eq_refl eq_refl eq_refl).
  reflexivity.
Defined.

(** X12.  Bodies that are not objects.  A list without the element
    ["entry"] and a text without the substring ["entry"] are answered
    [{"status": "ignored - no entry"}] like an object without the key; a
    list or text that does contain it, and [null], a boolean or a number,
    make a subscript or the membership test raise [TypeError] and are
    answered [{"status": "ok"}].  None of them invokes a helper or issues
    a request. *)
Theorem webhook_non_object_bodies :
  forall (rt : PyRuntime) (cfg : config) (request : Request) (body : json) (w : world),
    request_json_body request = Some body ->
    (forall items, body <> JObj items) ->
    fst (serve (handle_webhook cfg request) w)
    = mkReply 200 (BodyJson (status_dict
        match py_in "entry" body with
        | Ok false => "ignored - no entry"
        | _ => "ok"
        end)) /\
    enters (snd (serve (handle_webhook cfg request) w)) = [] /\
    requests (snd (serve (handle_webhook cfg request) w)) = [].
Proof.
  intros rt cfg request body w Hb Hno.
  rewrite (handle_webhook_run cfg request body w Hb).
  unfold webhook_try_block. run.
  destruct body as [| | | |s|xs|items]; cbn [py_in]; run;
    try (repeat split; fail).
  - destruct (contains "entry" s); run; cbn [py_getitem]; repeat split.
  - destruct (existsb (fun x => is_str x "entry") xs); run; cbn [py_getitem]; repeat split.
  - now destruct (Hno items).
Qed.

Lemma webhook_non_object_bodies_witness :
  fst (serve (handle_webhook (rt:=sample_runtime) sample_config
                (post (JArr [JStr "status"; JStr "delivered"]))) friendly_world)
  = mkReply 200 (BodyJson (status_dict "ignored - no entry"))
  /\ fst (serve (handle_webhook (rt:=sample_runtime) sample_config
                   (post (JStr "no entry here"))) friendly_world)
     = mkReply 200 (BodyJson (status_dict "ok"))
  /\ fst (serve (handle_webhook (rt:=sample_runtime) sample_config (post JNull))
            friendly_world)
     = mkReply 200 (BodyJson (status_dict "ok")).
Proof.
  split; [|split].
  - apply (webhook_non_object_bodies sample_runtime sample_config
             (post (JArr [JStr "status"; JStr "delivered"]))
             (JArr [JStr "status"; JStr "delivered"]) friendly_world eq_refl).
    discriminate.
  - apply (webhook_non_object_bodies sample_runtime sample_config
             (post (JStr "no entry here"))
             (JStr "no entry here") friendly_world eq_refl).
    discriminate.
  - apply (webhook_non_object_bodies sample_runtime sample_config (post JNull) JNull
             friendly_world eq_refl).
    discriminate.
Defined.

(** *** What one webhook event can cost *)

Ltac budget :=
  unfold within_budget, sends_only_to; cbn [filter is_send is_inference is_download];
  repeat match goal with
         | |- context [if ?b then _ else _] => destruct b
         end;
  cbn; repeat split; repeat constructor.

Lemma handle_unsupported_budget (cfg : config) (f : json) (w : world) (tr : trace) :
  exists r tr' cs rs,
    handle_unsupported cfg f w tr = (r, tr') /\
    enters tr' = enters tr ++ cs /\
    requests tr' = requests tr ++ rs /\
    within_budget f cs rs.
Proof.
  rewrite handle_unsupported_run.
  destruct (send_whatsapp_message_trace cfg f (JStr unsupported_message) w
              (tr ++ [EvLog INFO "⚠️ Unsupported message type: {msg_type}"]))
    as (r & tr1 & -> & He & Hr).
  rewrite enters_app, requests_app in *. cbn in He, Hr. rewrite app_nil_r in He, Hr.
  destruct r; eexists _, _, _, _; (split; [reflexivity|]);
    (split; [exact He|]); (split; [exact Hr|]); budget.
Qed.

Lemma handle_text_budget
    {rt : PyRuntime} (cfg : config) (message : list (string * json)) (f : json)
    (w : world) (tr : trace) :
  exists r tr' cs rs,
    handle_text cfg (JObj message) f w tr = (r, tr') /\
    enters tr' = enters tr ++ cs /\
    requests tr' = requests tr ++ rs /\
    within_budget f cs rs.
Proof.
  destruct (lookup "text" message) as [t|] eqn:Ht.
  2:{ unfold handle_text. run. cbn [py_getitem]. rewrite Ht.
      exists (Raise (KeyError (JStr "text"))), tr, [], [].
      rewrite !app_nil_r. repeat split; budget. }
  destruct (obj_get "body" t) as [q|] eqn:Hq.
  2:{ unfold handle_text. run. cbn [py_getitem]. rewrite Ht.
      destruct t; cbn [py_getitem obj_get] in *; rewrite ?Hq;
        eexists _, tr, [], []; rewrite !app_nil_r; repeat split; budget. }
  rewrite (handle_text_run cfg message f t q w tr Ht Hq).
  destruct (answer_question_trace cfg q w
              (tr ++ [EvLog INFO "💬 Text from {from_number}: {text}"]))
    as (a & tr1 & -> & Hea & Hra).
  destruct (send_whatsapp_message_trace cfg f a w tr1) as (sent & tr2 & -> & Hes & Hrs).
  rewrite enters_app, requests_app in *. cbn in Hea, Hra. rewrite app_nil_r in Hea, Hra.
  destruct sent as [j|e].
  - eexists _, _, _, _. split; [reflexivity|].
    rewrite enters_app, requests_app, Hes, Hrs, Hea, Hra. cbn.
    rewrite <- !app_assoc. split; [reflexivity|]. split; [reflexivity|]. budget.
  - destruct (apologize_trace cfg f text_apology w
                (tr2 ++ [EvLog ERROR "❌ Error answering question: {e}"]))
      as (tr3 & -> & Hep & Hrp & _).
    eexists _, _, _, _. split; [reflexivity|].
    rewrite Hep, Hrp, enters_app, requests_app, Hes, Hrs, Hea, Hra. cbn.
    rewrite <- !app_assoc. split; [reflexivity|]. split; [reflexivity|]. budget.
Qed.

Ltac image_head :=
  let image0 := fresh "image0" in
  let Hi0 := fresh "Hi0" in
  intros image0 Hi0;
  first [ congruence
        | injection Hi0 as <-; eexists _, _; cbn [app]; split; reflexivity ].

Ltac quiet_image :=
  split; [reflexivity|]; split; [reflexivity|]; split; [reflexivity|];
  split; [budget|image_head].

Lemma handle_image_budget
    {rt : PyRuntime} (cfg : config) (message : list (string * json)) (f : json)
    (w : world) (tr : trace) :
  exists r tr' cs rs,
    handle_image cfg (JObj message) f w tr = (r, tr') /\
    enters tr' = enters tr ++ cs /\
    requests tr' = requests tr ++ rs /\
    within_budget f cs rs /\
    (forall image,
        lookup "image" message = Some (JObj image) ->
        exists cs' rs',
          cs = CallDownload (media_id_of image) :: cs' /\
          rs = resolve_request cfg (media_id_of image) :: rs').
Proof.
  destruct (lookup "image" message) as [img|] eqn:Hi.
  2:{ unfold handle_image. run. cbn [py_getitem]. rewrite Hi.
      eexists _, tr, [], []. rewrite !app_nil_r. quiet_image. }
  assert (Hobj : (exists image, img = JObj image) \/ forall image, img <> JObj image).
  { destruct img; try (right; discriminate). left. now eexists. }
  destruct Hobj as [[image ->]|Hno].
  2:{ unfold handle_image. run. cbn [py_getitem]. rewrite Hi. run.
      destruct img; cbn [py_get]; try (now destruct (Hno items));
        eexists _, tr, [], []; rewrite !app_nil_r; quiet_image. }
  rewrite (handle_image_run cfg message image f w tr Hi). cbv zeta.
  assert (Hapol : forall e tr0 cs rs,
             enters tr0 = enters tr ++ cs ->
             requests tr0 = requests tr ++ rs ->
             exists tr', apologize cfg f (image_apology e) w
                           (tr0 ++ [EvLog ERROR "❌ Error processing image: {str(e)}"])
                         = (Ok tt, tr') /\
                         enters tr' = enters tr ++ cs ++ [CallSend f (JStr (image_apology e))] /\
                         requests tr' = requests tr ++ rs ++
                                        [send_request_of cfg f (JStr (image_apology e))]).
  { intros e tr0 cs rs He Hr.
    destruct (apologize_trace cfg f (image_apology e) w
                (tr0 ++ [EvLog ERROR "❌ Error processing image: {str(e)}"]))
      as (tr' & Hp & Hep & Hrp & _).
    exists tr'. split; [exact Hp|].
    rewrite Hep, Hrp, enters_app, requests_app, He, Hr. cbn.
    rewrite !app_nil_r, <- !app_assoc. split; reflexivity. }
  destruct (download_whatsapp_media_trace cfg (media_id_of image) w
              (tr ++ [EvLog INFO "🖼️ Image received from {from_number}, media_id={media_id}"]))
    as (rd & tr1 & -> & Hed & Hrd).
  rewrite enters_app, requests_app in *. cbn in Hed, Hrd. rewrite app_nil_r in Hed, Hrd.
  destruct rd as [image_bytes|e].
  2:{ destruct Hrd as [Hrd|[u Hrd]];
        destruct (Hapol e tr1 _ _ Hed Hrd) as (tr' & -> & He' & Hr');
        eexists _, _, _, _; (split; [reflexivity|]);
        (split; [exact He'|]); (split; [exact Hr'|]); (split; [budget|image_head]). }
  destruct Hrd as [u Hrd].
  destruct (analyze_image_trace cfg image_bytes w
              (tr1 ++ [EvLog INFO "✅ Downloaded image: {len(image_bytes)} bytes"]))
    as (a & tr2 & -> & Hea & Hra).
  rewrite enters_app, Hed in Hea. rewrite requests_app, Hrd in Hra. cbn in Hea, Hra.
  rewrite app_nil_r, <- app_assoc in Hea. rewrite app_nil_r, <- app_assoc in Hra.
  destruct (py_slice100 a) as [sl|e].
  2:{ destruct (Hapol e tr2 _ _ Hea Hra) as (tr' & -> & He' & Hr').
      eexists _, _, _, _. split; [reflexivity|].
      split; [exact He'|]. split; [exact Hr'|]. (split; [budget|image_head]). }
  destruct (send_whatsapp_message_trace cfg f (JStr (image_reply (caption_of image) a)) w
              (tr2 ++ [EvLog INFO "🤖 Analysis complete: {analysis[:100]}..."]))
    as (sent & tr3 & -> & Hes & Hrs).
  rewrite enters_app, Hea in Hes. rewrite requests_app, Hra in Hrs. cbn in Hes, Hrs.
  rewrite app_nil_r, <- !app_assoc in Hes. rewrite app_nil_r, <- !app_assoc in Hrs.
  destruct sent as [j|e].
  - eexists _, _, _, _. split; [reflexivity|].
    rewrite enters_app, requests_app, Hes, Hrs. cbn. rewrite <- !app_assoc.
    split; [reflexivity|]. split; [reflexivity|]. (split; [budget|image_head]).
  - destruct e;
      try (match goal with
           | |- context [apologize cfg f (image_apology ?e) w _] =>
               destruct (Hapol e tr3 _ _ Hes Hrs) as (tr' & -> & He' & Hr')
           end;
           eexists _, _, _, _; (split; [reflexivity|]);
           (split; [exact He'|]); (split; [exact Hr'|]); (split; [budget|image_head])).
    eexists _, _, _, _. split; [reflexivity|].
    rewrite !enters_app, !requests_app, Hes, Hrs.
    destruct (contains "131030" (text resp)); cbn; rewrite <- !app_assoc;
      (split; [reflexivity|]); (split; [reflexivity|]); (split; [budget|image_head]).
Qed.

(** X13.  Whatever the body and whatever the outside world answers, one
    webhook event either costs nothing, or its first message carries a
    sender and then: every send is addressed to that sender, there are at
    most two sends (a reply and an apology), at most one inference call,
    at most one media fetch, and at most five outbound requests.  Nothing
    is retried. *)
Theorem handle_webhook_budget :
  forall (rt : PyRuntime) (cfg : config) (request : Request) (body : json) (w : world),
    request_json_body request = Some body ->
    let tr := snd (serve (handle_webhook cfg request) w) in
    (enters tr = [] /\ requests tr = []) \/
    (exists message from_number,
        first_message body = Some message /\
        lookup "from" message = Some from_number /\
        within_budget from_number (enters tr) (requests tr)).
Proof.
  intros rt cfg request body w Hb. cbv zeta.
  destruct (webhook_try_block cfg body w [EvLog INFO "📩 Raw webhook payload: {body}"])
    as [r0 tr0] eqn:E.
  destruct (webhook_try_block_quiet cfg body w _ _ _ E)
    as [(message & f & Hm & Hf)|[He Hr]].
  - right. exists message, f. split; [exact Hm|]. split; [exact Hf|].
    destruct (handle_webhook_message cfg request body message f w Hb Hm Hf) as [_ Htrace].
    cbv zeta in Htrace.
    assert (Hbranch : forall branch : M unit,
               (exists r tr' cs rs, branch w prelude = (r, tr') /\
                                    enters tr' = enters prelude ++ cs /\
                                    requests tr' = requests prelude ++ rs /\
                                    within_budget f cs rs) ->
               match branch w prelude with
               | (Ok _, tr) => snd (serve (handle_webhook cfg request) w) = tr
               | (Raise e, tr) =>
                   snd (serve (handle_webhook cfg request) w) = tr ++ outer_except_logs e
               end ->
               within_budget f (enters (snd (serve (handle_webhook cfg request) w)))
                             (requests (snd (serve (handle_webhook cfg request) w)))).
    { intros branch (r & tr' & cs & rs & Hrun & Hec & Hrc & Hbud) Hfin.
      rewrite Hrun in Hfin. cbn in Hec, Hrc.
      destruct r as [u|e]; rewrite Hfin.
      - now rewrite Hec, Hrc.
      - destruct (outer_except_logs_silent e) as [Hle Hlr].
        now rewrite enters_app, requests_app, Hle, Hlr, !app_nil_r, Hec, Hrc. }
    destruct (is_str (get_or "type" message JNull) "image");
      [|destruct (is_str (get_or "type" message JNull) "text")].
    + apply (Hbranch (handle_image cfg (JObj message) f)); [|exact Htrace].
      destruct (handle_image_budget cfg message f w prelude)
        as (r & tr' & cs & rs & H1 & H2 & H3 & H4 & _).
      now exists r, tr', cs, rs.
    + apply (Hbranch (handle_text cfg (JObj message) f)); [|exact Htrace].
      apply handle_text_budget.
    + apply (Hbranch (handle_unsupported cfg f)); [|exact Htrace].
      apply handle_unsupported_budget.
  - left. rewrite (handle_webhook_run cfg request body w Hb), E.
    cbn in He, Hr.
    destruct r0 as [[d|]|e]; [| |destruct (outer_except_logs_silent e) as [Hle Hlr];
                                 destruct e];
      cbn [snd]; rewrite ?enters_app, ?requests_app, ?He, ?Hr; split; reflexivity.
Qed.

Lemma handle_webhook_budget_witness :
  let tr := snd (serve (handle_webhook (rt:=sample_runtime) sample_config
                          sample_image_request) send_fails_world) in
  (enters tr = [] /\ requests tr = []) \/
  (exists message from_number,
      first_message (payload_of (image_message "15551234567" "MEDIA1" "My cat"))
      = Some message /\
      lookup "from" message = Some from_number /\
      within_budget from_number (enters tr) (requests tr)).
Proof.
  exact (handle_webhook_budget sample_runtime sample_config sample_image_request
           (payload_of (image_message "15551234567" "MEDIA1" "My cat"))
           send_fails_world eq_refl).
Defined.

(** The budget is attained: when the platform accepts the image reply
    with a body that does not decode, the run makes two media requests,
    one inference request and two sends. *)
Example handle_webhook_budget_attained :
  let tr := snd (serve (handle_webhook (rt:=sample_runtime) sample_config
                          sample_image_request) empty_send_reply_world) in
  List.length (requests tr) = 5%nat /\
  List.length (filter is_send (enters tr)) = 2%nat /\
  List.length (filter is_inference (enters tr)) = 1%nat /\
  List.length (filter is_download (enters tr)) = 1%nat.
Proof. repeat split. Qed.

(** X14.  For an image message with a sender and an image object, the
    first thing the handler does outside is to fetch the media: the first
    helper invoked is the download of the media id, and the first request
    is the resolution request for it.  The media id is the image's
    ["id"], or its ["media_id"] when ["id"] is absent or false; when the
    image names neither, the resolution request is still issued, for
    [None]. *)
Theorem image_message_resolves_first :
  forall (rt : PyRuntime) (cfg : config) (request : Request) (w : world)
         (message image : list (string * json)) (from_number : json),
    carries request message from_number ->
    has_kind message "image" ->
    lookup "image" message = Some (JObj image) ->
    let tr := snd (serve (handle_webhook cfg request) w) in
    (exists cs rs,
        enters tr = CallDownload (media_id_of image) :: cs /\
        requests tr = resolve_request cfg (media_id_of image) :: rs) /\
    (forall id, lookup "id" image = Some id -> truthy id = true ->
                media_id_of image = id) /\
    (forall id, lookup "id" image = None -> lookup "media_id" image = Some id ->
                media_id_of image = id) /\
    (lookup "id" image = None -> lookup "media_id" image = None ->
     media_id_of image = JNull).
Proof.
  intros rt cfg request w message image from_number (body & Hb & Hm & Hf) Hk Hi. cbv zeta.
  split.
  - destruct (handle_webhook_message cfg request body message from_number w Hb Hm Hf)
      as [_ Htrace].
    cbv zeta in Htrace. unfold get_or in Htrace. rewrite Hk in Htrace.
    cbn [is_str String.eqb Ascii.eqb Bool.eqb] in Htrace.
    destruct (handle_image_budget cfg message from_number w prelude)
      as (r & tr' & cs & rs & Hrun & He & Hr & _ & Hhead).
    destruct (Hhead image Hi) as (cs' & rs' & -> & ->).
    rewrite Hrun in Htrace. cbn in He, Hr. exists cs', rs'.
    destruct r as [u|e]; rewrite Htrace; [now split|].
    destruct (outer_except_logs_silent e) as [Hle Hlr].
    now rewrite enters_app, requests_app, Hle, Hlr, !app_nil_r, He, Hr.
  - unfold media_id_of, get_or. repeat split.
    + intros id -> Ht. now rewrite Ht.
    + intros id -> ->. reflexivity.
    + intros -> ->. reflexivity.
Qed.

Lemma image_message_resolves_first_witness :
  let request :=
    post (payload_of (JObj [("from", JStr "15551234567"); ("type", JStr "image");
                            ("image", JObj [("mime_type", JStr "image/jpeg")])])) in
  exists cs rs,
    enters (snd (serve (handle_webhook (rt:=sample_runtime) sample_config request)
                  friendly_world))
    = CallDownload JNull :: cs /\
    requests (snd (serve (handle_webhook (rt:=sample_runtime) sample_config request)
                    friendly_world))
    = resolve_request (rt:=sample_runtime) sample_config JNull :: rs.
Proof.
  intros request.
  assert (Hc : carries request
                 [("from", JStr "15551234567"); ("type", JStr "image");
                  ("image", JObj [("mime_type", JStr "image/jpeg")])]
                 (JStr "15551234567")).
  { eexists. split; [reflexivity|]. split; reflexivity. }
  exact (proj1 (image_message_resolves_first sample_runtime sample_config request
                  friendly_world _ [("mime_type", JStr "image/jpeg")] _ Hc
                  eq_refl eq_refl)).
Defined.

(** X15.  A message that lacks the content of its kind costs nothing: a
    text message without a ["text"] object that has a ["body"], and an
    image message without an ["image"] object, are answered
    [{"status": "ok"}] with no helper invoked and no request issued -
    the sender is not told. *)
Theorem message_without_content_is_dropped :
  forall (rt : PyRuntime) (cfg : config) (request : Request) (w : world)
         (message : list (string * json)) (from_number : json),
    carries request message from_number ->
    (has_kind message "text" /\
     (forall t question, lookup "text" message = Some t ->
                         obj_get "body" t <> Some question)) \/
    (has_kind message "image" /\
     (forall image, lookup "image" message <> Some (JObj image))) ->
    fst (serve (handle_webhook cfg request) w) = ok_reply /\
    enters (snd (serve (handle_webhook cfg request) w)) = [] /\
    requests (snd (serve (handle_webhook cfg request) w)) = [].
Proof.
  intros rt cfg request w message from_number (body & Hb & Hm & Hf) Hcase.
  destruct (handle_webhook_message cfg request body message from_number w Hb Hm Hf)
    as [Hreply Htrace].
  split; [exact Hreply|]. cbv zeta in Htrace. unfold get_or in Htrace.
  assert (Hquiet : forall (branch : M unit) e,
             branch w prelude = (Raise e, prelude) ->
             match branch w prelude with
             | (Ok _, tr) => snd (serve (handle_webhook cfg request) w) = tr
             | (Raise e, tr) =>
                 snd (serve (handle_webhook cfg request) w) = tr ++ outer_except_logs e
             end ->
             enters (snd (serve (handle_webhook cfg request) w)) = [] /\
             requests (snd (serve (handle_webhook cfg request) w)) = []).
  { intros branch e Hrun Hfin. rewrite Hrun in Hfin. rewrite Hfin.
    destruct (outer_except_logs_silent e) as [Hle Hlr].
    now rewrite enters_app, requests_app, Hle, Hlr. }
  destruct Hcase as [[Hk Hno]|[Hk Hno]]; rewrite Hk in Htrace;
    cbn [is_str String.eqb Ascii.eqb Bool.eqb] in Htrace.
  - destruct (lookup "text" message) as [t|] eqn:Ht.
    + destruct (obj_get "body" t) as [q|] eqn:Hq; [now destruct (Hno t q eq_refl)|].
      assert (Hraise : exists e, py_getitem t "body" = Raise e).
      { destruct t; cbn [py_getitem obj_get] in *; rewrite ?Hq; eexists; reflexivity. }
      destruct Hraise as [e He].
      apply (Hquiet (handle_text cfg (JObj message) from_number) e); [|exact Htrace].
      unfold handle_text. run. cbn [py_getitem]. rewrite Ht, He. reflexivity.
    + apply (Hquiet (handle_text cfg (JObj message) from_number) (KeyError (JStr "text")));
        [|exact Htrace].
      unfold handle_text. run. cbn [py_getitem]. now rewrite Ht.
  - destruct (lookup "image" message) as [img|] eqn:Hi.
    + assert (Hraise : exists e, py_get img "id" JNull = Raise e).
      { destruct img; cbn [py_get]; try (eexists; reflexivity).
        now destruct (Hno items). }
      destruct Hraise as [e He].
      apply (Hquiet (handle_image cfg (JObj message) from_number) e); [|exact Htrace].
      unfold handle_image. run. cbn [py_getitem]. rewrite Hi. run. rewrite He. reflexivity.
    + apply (Hquiet (handle_image cfg (JObj message) from_number) (KeyError (JStr "image")));
        [|exact Htrace].
      unfold handle_image. run. cbn [py_getitem]. now rewrite Hi.
Qed.

Lemma message_without_content_is_dropped_witness :
  let request :=
    post (payload_of (JObj [("from", JStr "15551234567"); ("type", JStr "text");
                            ("text", JObj [])])) in
  fst (serve (handle_webhook (rt:=sample_runtime) sample_config request) friendly_world)
  = ok_reply /\
  enters (snd (serve (handle_webhook (rt:=sample_runtime) sample_config request)
                friendly_world)) = [] /\
  requests (snd (serve (handle_webhook (rt:=sample_runtime) sample_config request)
                  friendly_world)) = [].
Proof.
  intros request.
  apply (message_without_content_is_dropped sample_runtime sample_config request
           friendly_world
           [("from", JStr "15551234567"); ("type", JStr "text"); ("text", JObj [])]
           (JStr "15551234567")).
  - eexists. split; [reflexivity|]. split; reflexivity.
  - left. split; [reflexivity|].
    intros t question [= <-]. discriminate.
Defined.

(** *** Where the handler's requests go *)

Section Reach.

Context {rt : PyRuntime}.
Variable cfg : config.
Variable w : world.

Lemma only_known_quiet (tr extra : trace) :
  requests extra = [] -> only_known cfg tr -> only_known cfg (tr ++ extra).
Proof.
  unfold only_known. intros He H. now rewrite requests_app, He, app_nil_r.
Qed.

Lemma only_known_log (tr : trace) (lvl : level) (s : string) :
  only_known cfg tr -> only_known cfg (tr ++ [EvLog lvl s]).
Proof. now apply only_known_quiet. Qed.

Lemma only_known_snoc (tr tr' : trace) (r : http_request) :
  requests tr' = requests tr ++ [r] ->
  known_request cfg r -> only_known cfg tr -> only_known cfg tr'.
Proof.
  unfold only_known. intros -> Hr H. apply Forall_app. split; [exact H|].
  now constructor.
Qed.

Lemma send_known (to body : json) (tr : trace) :
  only_known cfg tr -> only_known cfg (snd (send_whatsapp_message cfg to body w tr)).
Proof.
  intros H. destruct (send_whatsapp_message_trace cfg to body w tr) as (r & tr' & -> & _ & Hr).
  apply (only_known_snoc tr _ _ Hr); [|exact H].
  unfold known_request. do 4 right. now exists to, body.
Qed.

Lemma apologize_known (to : json) (apology : string) (tr : trace) :
  only_known cfg tr -> only_known cfg (snd (apologize cfg to apology w tr)).
Proof.
  intros H. destruct (apologize_trace cfg to apology w tr) as (tr' & -> & _ & Hr & _).
  apply (only_known_snoc tr _ _ Hr); [|exact H].
  unfold known_request. do 4 right. now eexists _, _.
Qed.

Lemma answer_known (question : json) (tr : trace) :
  only_known cfg tr -> only_known cfg (snd (answer_question cfg question w tr)).
Proof.
  intros H. destruct (answer_question_trace cfg question w tr) as (a & tr' & -> & _ & Hr).
  cbn [snd]. destruct (opt_truthy (GEMINI_API_KEY cfg)).
  - apply (only_known_snoc tr _ _ Hr); [|exact H].
    unfold known_request. do 3 right. left. now exists question.
  - unfold only_known. now rewrite Hr, app_nil_r.
Qed.

Lemma analyze_known (image_bytes : list Byte.byte) (tr : trace) :
  only_known cfg tr -> only_known cfg (snd (analyze_image cfg image_bytes w tr)).
Proof.
  intros H. destruct (analyze_image_trace cfg image_bytes w tr) as (a & tr' & -> & _ & Hr).
  cbn [snd]. destruct (opt_truthy (GEMINI_API_KEY cfg)).
  - apply (only_known_snoc tr _ _ Hr); [|exact H].
    unfold known_request. do 2 right. left. now exists image_bytes.
  - unfold only_known. now rewrite Hr, app_nil_r.
Qed.

Lemma download_known (media_id : json) (tr : trace) :
  only_known cfg tr -> only_known cfg (snd (download_whatsapp_media cfg media_id w tr)).
Proof.
  intros H.
  destruct (download_whatsapp_media_trace cfg media_id w tr) as (r & tr' & -> & _ & Hr).
  assert (K1 : known_request cfg (resolve_request cfg media_id))
    by (left; now exists media_id).
  assert (K2 : forall u, known_request cfg (fetch_request cfg u))
    by (intros u; right; left; now exists u).
  cbn [snd]. unfold only_known in *.
  destruct r as [b|e]; [destruct Hr as [u ->]|destruct Hr as [->|[u ->]]];
    apply Forall_app; (split; [exact H|]);
    repeat first [apply Forall_cons | apply Forall_nil]; auto.
Qed.

Lemma handle_text_known (message : list (string * json)) (f : json) (tr : trace) :
  only_known cfg tr -> only_known cfg (snd (handle_text cfg (JObj message) f w tr)).
Proof.
  intros H.
  destruct (lookup "text" message) as [t|] eqn:Ht.
  2:{ unfold handle_text. run. cbn [py_getitem]. now rewrite Ht. }
  destruct (obj_get "body" t) as [q|] eqn:Hq.
  2:{ unfold handle_text. run. cbn [py_getitem]. rewrite Ht.
      destruct t; cbn [py_getitem obj_get] in *; rewrite ?Hq; exact H. }
  rewrite (handle_text_run cfg message f t q w tr Ht Hq).
  match goal with
  | |- context [answer_question cfg q w ?t] =>
      pose proof (answer_known q t (only_known_log tr _ _ H)) as K1
  end.
  destruct (answer_question cfg q w _) as [[a|e] tr1]; cbn [snd] in K1.
  - pose proof (send_known f a tr1 K1) as K2.
    destruct (send_whatsapp_message cfg f a w tr1) as [[j|e] tr2]; cbn [snd] in K2 |- *.
    + now apply only_known_log.
    + now apply apologize_known, only_known_log.
  - now apply apologize_known, only_known_log.
Qed.

Lemma handle_image_known (message : list (string * json)) (f : json) (tr : trace) :
  only_known cfg tr -> only_known cfg (snd (handle_image cfg (JObj message) f w tr)).
Proof.
  intros H.
  destruct (lookup "image" message) as [img|] eqn:Hi.
  2:{ unfold handle_image. run. cbn [py_getitem]. now rewrite Hi. }
  destruct img as [| | | | | |image];
    try (unfold handle_image; run; cbn [py_getitem]; rewrite Hi; run; exact H).
  rewrite (handle_image_run cfg message image f w tr Hi). cbv zeta.
  match goal with
  | |- context [download_whatsapp_media cfg (media_id_of image) w ?t] =>
      pose proof (download_known (media_id_of image) t (only_known_log tr _ _ H)) as K1
  end.
  destruct (download_whatsapp_media cfg (media_id_of image) w _) as [[b|e] tr1];
    cbn [snd] in K1; [|now apply apologize_known, only_known_log].
  match goal with
  | |- context [analyze_image cfg b w ?t] =>
      pose proof (analyze_known b t (only_known_log tr1 _ _ K1)) as K2
  end.
  destruct (analyze_image cfg b w _) as [[a|e] tr2];
    cbn [snd] in K2; [|now apply apologize_known, only_known_log].
  destruct (py_slice100 a) as [sl|e]; [|now apply apologize_known, only_known_log].
  match goal with
  | |- context [send_whatsapp_message cfg f ?reply w ?t] =>
      pose proof (send_known f reply t (only_known_log tr2 _ _ K2)) as K3
  end.
  destruct (send_whatsapp_message cfg f _ w _) as [[j|e] tr3]; cbn [snd] in K3 |- *;
    [now apply only_known_log|].
  destruct e; try (now apply apologize_known, only_known_log).
  apply only_known_quiet; [|exact K3].
  now destruct (contains "131030" (text resp)).
Qed.

Lemma handle_unsupported_known (f : json) (tr : trace) :
  only_known cfg tr -> only_known cfg (snd (handle_unsupported cfg f w tr)).
Proof.
  intros H. rewrite handle_unsupported_run.
  match goal with
  | |- context [send_whatsapp_message cfg f ?notice w ?t] =>
      pose proof (send_known f notice t (only_known_log tr _ _ H)) as K
  end.
  now destruct (send_whatsapp_message cfg f _ w _) as [[j|e] tr1].
Qed.

End Reach.

(** X16.  Every request a webhook event causes is one of five: the media
    resolution at the Graph API, the download from the URL that
    resolution named, the request to the vision model, the request to
    the text model, or a send through the configured phone number.  The
    handler contacts nothing else, and the only address it takes from
    outside is the media URL. *)
Theorem handle_webhook_known_requests :
  forall (rt : PyRuntime) (cfg : config) (request : Request) (body : json) (w : world),
    request_json_body request = Some body ->
    Forall (known_request cfg) (requests (snd (serve (handle_webhook cfg request) w))).
Proof.
  intros rt cfg request body w Hb.
  destruct (webhook_try_block cfg body w [EvLog INFO "📩 Raw webhook payload: {body}"])
    as [r0 tr0] eqn:E.
  destruct (webhook_try_block_quiet cfg body w _ _ _ E)
    as [(message & f & Hm & Hf)|[_ Hr]].
  - destruct (handle_webhook_message cfg request body message f w Hb Hm Hf) as [_ Htrace].
    cbv zeta in Htrace.
    assert (Hbranch : forall branch : M unit,
               only_known cfg (snd (branch w prelude)) ->
               match branch w prelude with
               | (Ok _, tr) => snd (serve (handle_webhook cfg request) w) = tr
               | (Raise e, tr) =>
                   snd (serve (handle_webhook cfg request) w) = tr ++ outer_except_logs e
               end ->
               only_known cfg (snd (serve (handle_webhook cfg request) w))).
    { intros branch K Hfin. destruct (branch w prelude) as [[u|e] tr]; rewrite Hfin.
      - exact K.
      - apply only_known_quiet; [apply outer_except_logs_silent|exact K]. }
    assert (K0 : only_known cfg prelude) by constructor.
    destruct (is_str (get_or "type" message JNull) "image");
      [|destruct (is_str (get_or "type" message JNull) "text")].
    + apply (Hbranch (handle_image cfg (JObj message) f)); [|exact Htrace].
      now apply handle_image_known.
    + apply (Hbranch (handle_text cfg (JObj message) f)); [|exact Htrace].
      now apply handle_text_known.
    + apply (Hbranch (handle_unsupported cfg f)); [|exact Htrace].
      now apply handle_unsupported_known.
  - rewrite (handle_webhook_run cfg request body w Hb), E. cbn in Hr.
    destruct r0 as [[d|]|e]; [| |destruct (outer_except_logs_silent e) as [_ Hlr];
                                 destruct e];
      cbn [snd]; rewrite ?requests_app, ?Hr, ?Hlr; constructor.
Qed.

Lemma handle_webhook_known_requests_witness :
  Forall (known_request (rt:=sample_runtime) sample_config)
         (requests (snd (serve (handle_webhook (rt:=sample_runtime) sample_config
                                  sample_image_request) friendly_world))).
Proof.
  exact (handle_webhook_known_requests sample_runtime sample_config
           sample_image_request
           (payload_of (image_message "15551234567" "MEDIA1" "My cat"))
           friendly_world eq_refl).
Defined.

(** X17.  Of a successful answer of the text model only the first part of
    the first candidate is read: further candidates and parts are
    ignored, and an answer with an empty list of candidates (or none)
    becomes the canned error message. *)
Theorem answer_question_reads_first_candidate :
  forall (cfg : config) (question : json) (w : world) (tr : trace)
         (r : response) (res : list (string * json)),
    opt_truthy (GEMINI_API_KEY cfg) = true ->
    w (tr ++ [EvEnter (CallAnswer question)]) (text_request cfg question) = Responds r ->
    is_success (status_code r) = true ->
    json_of r = Some (JObj res) ->
    let answer := fst (answer_question cfg question w tr) in
    (forall candidate others content part more t,
        lookup "candidates" res = Some (JArr (JObj candidate :: others)) ->
        lookup "content" candidate = Some (JObj content) ->
        lookup "parts" content = Some (JArr (JObj part :: more)) ->
        lookup "text" part = Some t ->
        answer = Ok t) /\
    (lookup "candidates" res = Some (JArr []) -> answer = Ok (JStr answer_error)) /\
    (lookup "candidates" res = None -> answer = Ok (JStr answer_error)).
Proof.
  intros cfg question w tr r res Hkey Hw Hs Hj. cbv zeta.
  assert (H429 : (status_code r =? 429) = false).
  { unfold is_success in Hs. apply andb_prop in Hs. destruct Hs as [_ Hs].
    apply Z.leb_le in Hs. apply Z.eqb_neq. lia. }
  unfold answer_question, text_request in *. run. rewrite Hkey, Hw. run.
  rewrite H429, Hs. run. rewrite Hj. run.
  unfold candidate_text. cbn [py_getitem]. repeat split.
  - intros candidate others content part more t -> .
    cbn [py_getitem0 py_getitem]. intros -> . cbn [py_getitem]. intros ->.
    cbn [py_getitem0 py_getitem]. intros ->. reflexivity.
  - intros ->. reflexivity.
  - intros ->. reflexivity.
Qed.

Lemma answer_question_reads_first_candidate_witness :
  fst (answer_question sample_config (JStr "Hi")
         (fun _ _ => Responds (json_response 200 two_candidate_answer)) [])
  = Ok (JStr "first").
Proof.
  exact (proj1 (answer_question_reads_first_candidate sample_config (JStr "Hi")
                  (fun _ _ => Responds (json_response 200 two_candidate_answer)) []
                  (json_response 200 two_candidate_answer)
                  [("candidates", JArr [
                     JObj [("content", JObj [("parts", JArr [JObj [("text", JStr "first")];
                                                             JObj [("text", JStr "second")]])])];
                     JObj [("content", JObj [("parts", JArr [JObj [("text", JStr "other")]])])]])]
                  eq_refl eq_refl eq_refl eq_refl)
               [("content", JObj [("parts", JArr [JObj [("text", JStr "first")];
                                                  JObj [("text", JStr "second")]])])]
               [JObj [("content", JObj [("parts", JArr [JObj [("text", JStr "other")]])])]]
               [("parts", JArr [JObj [("text", JStr "first")];
                                JObj [("text", JStr "second")]])]
               [("text", JStr "first")]
               [JObj [("text", JStr "second")]]
               (JStr "first")
               eq_refl eq_refl eq_refl eq_refl).
Defined.
